(** * dm-data-renamer: renaming tables and columns to generic names

    A shallow embedding of [src/main.py] and the properties of its
    renaming engine.  The Python code talks to SQLite through a cursor;
    here the database is an interface ([Database]) that answers SQL text,
    and the process state ([World]) carries the database, the cursor's
    pending rows, the sequence of calls made on the connection and the
    log.  [Module SQLite] gives a small executable database that
    understands exactly the four statement shapes the program builds. *)

From stdpp Require Import base list strings pretty.
From Stdlib Require Import Ascii Lia.

Local Open Scope string_scope.
Local Open Scope list_scope.

(** ** Python values *)

(** The double quote character (code 34), which the source's f-strings
    write as a backslash escape. *)
Definition DQ : string := String "034"%char EmptyString.

(** [str(n)] for a non-negative integer. *)
Definition str (n : nat) : string := pretty n.

(** [enumerate(l)], as the list of its [(index, item)] pairs. *)
Fixpoint enumerate_from {A : Type} (i : nat) (l : list A) : list (nat * A) :=
  match l with
  | [] => []
  | x :: l' => (i, x) :: enumerate_from (S i) l'
  end.

Definition enumerate {A : Type} (l : list A) : list (nat * A) :=
  enumerate_from 0 l.

(** A Python [dict] from [str] to [str]: insertion ordered, keys unique.
    [d[k] = v] overwrites the value of an existing key in place and
    appends a new key at the end. *)
Definition dict : Type := list (string * string).

Fixpoint dict_set (k v : string) (d : dict) : dict :=
  match d with
  | [] => [(k, v)]
  | (k', v') :: d' =>
      if String.eqb k' k then (k, v) :: d' else (k', v') :: dict_set k v d'
  end.

Fixpoint dict_get (k : string) (d : dict) : option string :=
  match d with
  | [] => None
  | (k', v') :: d' => if String.eqb k' k then Some v' else dict_get k d'
  end.

Definition dict_keys (d : dict) : list string := map fst d.
Definition dict_values (d : dict) : list string := map snd d.

(** ** Exceptions, log records and the database interface *)

Inductive exn : Type :=
  | sqlite3_Error (msg : string)
  | IndexError
  | FileNotFoundError (msg : string)
  | ValueError (msg : string).

(** [f"{e}"] *)
Definition exn_str (e : exn) : string :=
  match e with
  | sqlite3_Error msg => msg
  | IndexError => "tuple index out of range"
  | FileNotFoundError msg => msg
  | ValueError msg => msg
  end.

Inductive level : Type := INFO | WARNING | ERROR.

Definition log_record : Type := (level * string)%type.

(** A result row; every field is kept as text. *)
Definition row : Type := list string.

(** What the database engine does with one SQL text: it raises
    [sqlite3.Error] with a message, or it succeeds, moves to a new
    database state and hands back the result rows.  A statement that
    raises leaves the database as it was. *)
Class Database (DB : Type) : Type :=
  db_execute : DB -> string -> string + (DB * list row).

(** The calls made on the connection, in order. *)
Inductive event : Type :=
  | Execute (sql : string)
  | Commit
  | Close.

Record World (DB : Type) : Type := mkWorld {
  db : DB;                    (* the database behind the connection *)
  pending : list row;         (* rows the cursor holds for fetchall() *)
  connected : bool;           (* 'conn' in locals() *)
  trace : list event;         (* calls made on the connection so far *)
  log : list log_record       (* records handed to logging so far *)
}.
Arguments mkWorld {DB}.
Arguments db {DB}.
Arguments pending {DB}.
Arguments connected {DB}.
Arguments trace {DB}.
Arguments log {DB}.

(** ** A state and exception monad for the Python statements *)

Inductive result (A : Type) : Type :=
  | Ok (a : A)
  | Raise (e : exn).
Arguments Ok {A}.
Arguments Raise {A}.

Definition M (DB A : Type) : Type := World DB -> result A * World DB.

Definition ret {DB A} (a : A) : M DB A := fun w => (Ok a, w).

Definition raise {DB A} (e : exn) : M DB A := fun w => (Raise e, w).

Definition bind {DB A B} (m : M DB A) (k : A -> M DB B) : M DB B :=
  fun w =>
    match m w with
    | (Ok a, w') => k a w'
    | (Raise e, w') => (Raise e, w')
    end.

Notation "x <- m ;; k" := (bind m (fun x => k))
  (at level 100, m at next level, right associativity).
Notation "m ;;; k" := (bind m (fun _ => k))
  (at level 100, right associativity).

(** [try: body  except sqlite3.Error as e: handler e]; every other
    exception passes through. *)
Definition try_except_sqlite3 {DB A} (body : M DB A) (handler : exn -> M DB A)
  : M DB A :=
  fun w =>
    match body w with
    | (Raise (sqlite3_Error msg), w') => handler (sqlite3_Error msg) w'
    | r => r
    end.

Section Program.
Context {DB : Type} `{!Database DB}.

(** *** The cursor and the logger *)

Definition cursor_execute (sql : string) : M DB unit :=
  fun w =>
    let tr := trace w ++ [Execute sql] in
    match db_execute (db w) sql with
    | inl msg =>
        (Raise (sqlite3_Error msg),
         mkWorld (db w) [] (connected w) tr (log w))
    | inr (db', rows) =>
        (Ok tt, mkWorld db' rows (connected w) tr (log w))
    end.

Definition cursor_fetchall : M DB (list row) :=
  fun w =>
    (Ok (pending w), mkWorld (db w) [] (connected w) (trace w) (log w)).

Definition logging (lvl : level) (msg : string) : M DB unit :=
  fun w =>
    (Ok tt,
     mkWorld (db w) (pending w) (connected w) (trace w) (log w ++ [(lvl, msg)])).

Definition logging_info : string -> M DB unit := logging INFO.
Definition logging_warning : string -> M DB unit := logging WARNING.
Definition logging_error : string -> M DB unit := logging ERROR.

(** [[row[n] for row in rows]]: [IndexError] at the first row that is
    too short. *)
Fixpoint column_of_rows (n : nat) (rows : list row) : M DB (list string) :=
  match rows with
  | [] => ret []
  | r :: rows' =>
      match r !! n with
      | None => raise IndexError
      | Some x => xs <- column_of_rows n rows' ;; ret (x :: xs)
      end
  end.

(** *** rename_tables (lines 25-58) *)

Definition sql_select_tables : string :=
  "SELECT name FROM sqlite_master WHERE type='table';".

Definition sql_rename_table (old_name new_name : string) : string :=
  "ALTER TABLE " +:+ DQ +:+ old_name +:+ DQ +:+
  " RENAME TO " +:+ DQ +:+ new_name +:+ DQ +:+ ";".

Definition msg_table_renamed (old_name new_name : string) : string :=
  "Renamed table '" +:+ old_name +:+ "' to '" +:+ new_name +:+ "'".

Definition msg_table_failed (old_name new_name : string) (e : exn) : string :=
  "Failed to rename table '" +:+ old_name +:+ "' to '" +:+ new_name +:+
  "': " +:+ exn_str e.

Definition msg_table_dry (old_name new_name : string) : string :=
  "(Dry run) Renaming table '" +:+ old_name +:+ "' to '" +:+ new_name +:+ "'".

(** The [for i, old_name in enumerate(tables)] loop, lines 42-53; the
    dictionary under construction is the loop's state. *)
Fixpoint rename_tables_loop (prefix : string) (dry_run : bool)
    (items : list (nat * string)) (table_mapping : dict) : M DB dict :=
  match items with
  | [] => ret table_mapping
  | (i, old_name) :: items' =>
      let new_name := prefix +:+ str (i + 1) in
      let table_mapping := dict_set old_name new_name table_mapping in
      (if negb dry_run then
         try_except_sqlite3
           (cursor_execute (sql_rename_table old_name new_name) ;;;
            logging_info (msg_table_renamed old_name new_name))
           (fun e => logging_error (msg_table_failed old_name new_name e))
       else
         logging_info (msg_table_dry old_name new_name)) ;;;
      rename_tables_loop prefix dry_run items' table_mapping
  end.

Definition rename_tables (prefix : string) (dry_run : bool) : M DB dict :=
  try_except_sqlite3
    (cursor_execute sql_select_tables ;;;
     rows <- cursor_fetchall ;;
     tables <- column_of_rows 0 rows ;;
     rename_tables_loop prefix dry_run (enumerate tables) [])
    (fun e =>
       logging_error ("Error during table renaming: " +:+ exn_str e) ;;;
       ret []).

(** *** rename_columns (lines 61-90) *)

Definition sql_table_info (table_name : string) : string :=
  "PRAGMA table_info(" +:+ DQ +:+ table_name +:+ DQ +:+ ");".

Definition sql_rename_column (table_name old_name new_name : string) : string :=
  "ALTER TABLE " +:+ DQ +:+ table_name +:+ DQ +:+
  " RENAME COLUMN " +:+ DQ +:+ old_name +:+ DQ +:+
  " TO " +:+ DQ +:+ new_name +:+ DQ +:+ ";".

Definition msg_column_renamed (old_name table_name new_name : string) : string :=
  "Renamed column '" +:+ old_name +:+ "' in table '" +:+ table_name +:+
  "' to '" +:+ new_name +:+ "'".

Definition msg_column_failed (old_name table_name new_name : string) (e : exn)
  : string :=
  "Failed to rename column '" +:+ old_name +:+ "' in table '" +:+ table_name +:+
  "' to '" +:+ new_name +:+ "': " +:+ exn_str e.

Definition msg_column_dry (old_name table_name new_name : string) : string :=
  "(Dry run) Renaming column '" +:+ old_name +:+ "' in table '" +:+
  table_name +:+ "' to '" +:+ new_name +:+ "'".

(** The inner loop [for i, old_name in enumerate(columns)], lines 77-88.
    It returns the local [column_mapping] as it stands when the loop
    ends, so that it can be observed; the caller drops it, as the source
    does. *)
Fixpoint rename_columns_inner (prefix table_name : string) (dry_run : bool)
    (items : list (nat * string)) (column_mapping : dict) : M DB dict :=
  match items with
  | [] => ret column_mapping
  | (i, old_name) :: items' =>
      let new_name := prefix +:+ str (i + 1) in
      let column_mapping := dict_set old_name new_name column_mapping in
      (if negb dry_run then
         try_except_sqlite3
           (cursor_execute (sql_rename_column table_name old_name new_name) ;;;
            logging_info (msg_column_renamed old_name table_name new_name))
           (fun e =>
              logging_error (msg_column_failed old_name table_name new_name e))
       else
         logging_info (msg_column_dry old_name table_name new_name)) ;;;
      rename_columns_inner prefix table_name dry_run items' column_mapping
  end.

(** The outer loop [for table_name in table_mapping.values()], lines 72-88. *)
Fixpoint rename_columns_loop (prefix : string) (dry_run : bool)
    (table_names : list string) : M DB unit :=
  match table_names with
  | [] => ret tt
  | table_name :: table_names' =>
      cursor_execute (sql_table_info table_name) ;;;
      rows <- cursor_fetchall ;;
      columns <- column_of_rows 1 rows ;;
      _ <- rename_columns_inner prefix table_name dry_run (enumerate columns) [] ;;
      rename_columns_loop prefix dry_run table_names'
  end.

Definition rename_columns (prefix : string) (table_mapping : dict)
    (dry_run : bool) : M DB unit :=
  try_except_sqlite3
    (rename_columns_loop prefix dry_run (dict_values table_mapping))
    (fun e => logging_error ("Error during column renaming: " +:+ exn_str e)).

(** *** handle_foreign_key_constraints (lines 93-102) *)

Definition msg_fk_warning : string :=
  "Foreign key constraint handling is not fully implemented.  Manual review of constraints is recommended.".

Definition msg_fk_apply : string :=
  "Foreign key constraint adjustments would be made here in a full implementation.".

Definition msg_fk_dry : string :=
  "(Dry run) Foreign key constraint adjustments would be made here in a full implementation.".

Definition handle_foreign_key_constraints (table_mapping : dict)
    (dry_run : bool) : M DB unit :=
  logging_warning msg_fk_warning ;;;
  if negb dry_run then logging_info msg_fk_apply
  else logging_info msg_fk_dry.

(** *** validate_database_path and main (lines 104-151) *)

(** [os.path.exists] and [os.path.isfile], as the file system answers
    them. *)
Context (os_path_exists os_path_isfile : string -> bool).

Definition validate_database_path (db_path : string) : M DB unit :=
  if negb (os_path_exists db_path) then
    raise (FileNotFoundError ("Database file not found: " +:+ db_path))
  else if negb (os_path_isfile db_path) then
    raise (ValueError ("Invalid database path: " +:+ db_path +:+ " is not a file"))
  else ret tt.

Record Args : Type := mkArgs {
  arg_database : string;
  arg_prefix_table : string;
  arg_prefix_column : string;
  arg_dry_run : bool;
  arg_log_file : string
}.

(** [conn = sqlite3.connect(path)]: from here on [conn] is a local. *)
Definition sqlite3_connect (path : string) : M DB unit :=
  fun w => (Ok tt, mkWorld (db w) (pending w) true (trace w) (log w)).

Definition conn_commit : M DB unit :=
  fun w =>
    (Ok tt, mkWorld (db w) (pending w) (connected w) (trace w ++ [Commit]) (log w)).

Definition conn_close : M DB unit :=
  fun w =>
    (Ok tt, mkWorld (db w) (pending w) (connected w) (trace w ++ [Close]) (log w)).

(** The body of the [try], lines 126-138. *)
Definition main_try (args : Args) : M DB unit :=
  validate_database_path (arg_database args) ;;;
  sqlite3_connect (arg_database args) ;;;
  table_mapping <- rename_tables (arg_prefix_table args) (arg_dry_run args) ;;
  rename_columns (arg_prefix_column args) table_mapping (arg_dry_run args) ;;;
  handle_foreign_key_constraints table_mapping (arg_dry_run args) ;;;
  if negb (arg_dry_run args) then
    conn_commit ;;;
    logging_info "Database renaming completed successfully."
  else
    logging_info "Dry run completed. No changes were applied to the database.".

(** The [except] clauses, lines 140-147. *)
Definition main_except (e : exn) : M DB unit :=
  match e with
  | FileNotFoundError _ => logging_error ("File error: " +:+ exn_str e)
  | ValueError _ => logging_error ("Value error: " +:+ exn_str e)
  | sqlite3_Error _ => logging_error ("Database error: " +:+ exn_str e)
  | IndexError =>
      logging_error ("An unexpected error occurred: " +:+ exn_str e)
  end.

(** The [finally] clause, lines 148-151. *)
Definition main_finally : M DB unit :=
  fun w =>
    if connected w then
      (conn_close ;;; logging_info "Database connection closed.") w
    else (Ok tt, w).

Definition main (args : Args) : M DB unit :=
  fun w =>
    let '(r, w1) := main_try args w in
    let '(_, w2) :=
      match r with
      | Ok _ => (Ok tt, w1)
      | Raise e => main_except e w1
      end in
    main_finally w2.

End Program.

(** A process that has not opened anything yet. *)
Definition start {DB : Type} (d : DB) : World DB := mkWorld d [] false [] [].

(** ** A small SQLite

    The database engine is not part of the repository.  This module is
    an executable stand-in used to run the program on concrete
    databases: a catalog of tables with their columns, and an
    interpreter for the statement shapes the program sends.  Identifier
    comparison is exact (SQLite's is case-insensitive); only column
    names are kept, so [table_info] rows carry empty type fields. *)
Module SQLite.

Definition catalog : Type := list (string * list string).

(** A file that is not a database makes every statement raise. *)
Inductive sqlite_db : Type :=
  | NotADatabase
  | Catalog (tables : catalog).

Fixpoint strip_prefix (p s : string) : option string :=
  match p, s with
  | EmptyString, _ => Some s
  | String c p', String c' s' =>
      if Ascii.eqb c c' then strip_prefix p' s' else None
  | String _ _, EmptyString => None
  end.

(** The text of a delimited identifier after its opening quote: it runs
    to the first quote character that is not doubled, and a doubled
    quote stands for one quote character. *)
Fixpoint quoted_body (s : string) : option (string * string) :=
  match s with
  | EmptyString => None
  | String c s' =>
      if Ascii.eqb c "034" then
        match s' with
        | String c2 s'' =>
            if Ascii.eqb c2 "034" then
              match quoted_body s'' with
              | Some (name, rest) => Some (String "034" name, rest)
              | None => None
              end
            else Some (EmptyString, s')
        | EmptyString => Some (EmptyString, EmptyString)
        end
      else
        match quoted_body s' with
        | Some (name, rest) => Some (String c name, rest)
        | None => None
        end
  end.

Definition quoted_identifier (s : string) : option (string * string) :=
  match s with
  | String c s' => if Ascii.eqb c "034" then quoted_body s' else None
  | EmptyString => None
  end.

Inductive statement : Type :=
  | SelectTables
  | TableInfo (table : string)
  | RenameTable (old_name new_name : string)
  | RenameColumn (table old_name new_name : string).

Definition parse_table_info (rest : string) : option statement :=
  match quoted_identifier rest with
  | Some (t, rest) => if String.eqb rest ");" then Some (TableInfo t) else None
  | None => None
  end.

Definition parse_rename_column (t rest : string) : option statement :=
  match quoted_identifier rest with
  | Some (c, rest) =>
      match strip_prefix " TO " rest with
      | Some rest =>
          match quoted_identifier rest with
          | Some (n, rest) =>
              if String.eqb rest ";" then Some (RenameColumn t c n) else None
          | None => None
          end
      | None => None
      end
  | None => None
  end.

Definition parse_alter (rest : string) : option statement :=
  match quoted_identifier rest with
  | Some (t, rest) =>
      match strip_prefix " RENAME TO " rest with
      | Some rest =>
          match quoted_identifier rest with
          | Some (n, rest) =>
              if String.eqb rest ";" then Some (RenameTable t n) else None
          | None => None
          end
      | None =>
          match strip_prefix " RENAME COLUMN " rest with
          | Some rest => parse_rename_column t rest
          | None => None
          end
      end
  | None => None
  end.

Definition parse (sql : string) : option statement :=
  if String.eqb sql sql_select_tables then Some SelectTables
  else
    match strip_prefix "PRAGMA table_info(" sql with
    | Some rest => parse_table_info rest
    | None =>
        match strip_prefix "ALTER TABLE " sql with
        | Some rest => parse_alter rest
        | None => None
        end
    end.

Fixpoint columns_of (t : string) (cat : catalog) : option (list string) :=
  match cat with
  | [] => None
  | (t', cols) :: cat' => if String.eqb t' t then Some cols else columns_of t cat'
  end.

Definition has_table (t : string) (cat : catalog) : bool :=
  match columns_of t cat with Some _ => true | None => false end.

Definition has_column (c : string) (cols : list string) : bool :=
  existsb (String.eqb c) cols.

Definition rename_in (old_name new_name : string) (names : list string)
  : list string :=
  map (fun x => if String.eqb x old_name then new_name else x) names.

Definition rename_table_in (old_name new_name : string) (cat : catalog)
  : catalog :=
  map (fun '(t, cols) => if String.eqb t old_name then (new_name, cols) else (t, cols))
      cat.

Definition rename_column_in (t old_name new_name : string) (cat : catalog)
  : catalog :=
  map (fun '(t', cols) =>
         if String.eqb t' t then (t', rename_in old_name new_name cols)
         else (t', cols))
      cat.

(** One row of [PRAGMA table_info]: cid, name, type, notnull,
    dflt_value, pk. *)
Definition table_info_row (item : nat * string) : row :=
  [str (fst item); snd item; ""; "0"; ""; "0"].

Definition run (st : statement) (cat : catalog)
  : string + (sqlite_db * list row) :=
  match st with
  | SelectTables => inr (Catalog cat, map (fun '(t, _) => [t]) cat)
  | TableInfo t =>
      match columns_of t cat with
      | Some cols => inr (Catalog cat, map table_info_row (enumerate cols))
      | None => inr (Catalog cat, [])
      end
  | RenameTable old_name new_name =>
      if negb (has_table old_name cat) then inl ("no such table: " +:+ old_name)
      else if has_table new_name cat then
        inl ("there is already another table or index with this name: " +:+ new_name)
      else inr (Catalog (rename_table_in old_name new_name cat), [])
  | RenameColumn t old_name new_name =>
      match columns_of t cat with
      | None => inl ("no such table: " +:+ t)
      | Some cols =>
          if negb (has_column old_name cols) then
            inl ("no such column: " +:+ old_name)
          else if has_column new_name cols then
            inl ("duplicate column name: " +:+ new_name)
          else inr (Catalog (rename_column_in t old_name new_name cat), [])
      end
  end.

Definition execute (d : sqlite_db) (sql : string)
  : string + (sqlite_db * list row) :=
  match d with
  | NotADatabase => inl "file is not a database"
  | Catalog cat =>
      match parse sql with
      | Some st => run st cat
      | None => inl "syntax error"
      end
  end.

#[global] Instance sqlite_Database : Database sqlite_db := execute.

End SQLite.

(** ** Databases used in the concrete runs *)

(** Scenario A of the specification: [users(id, name)], [orders(id, user_id)]. *)
Definition scenario_db : SQLite.sqlite_db :=
  SQLite.Catalog [("users", ["id"; "name"]); ("orders", ["id"; "user_id"])].

(** A database in which the first generic name is already taken. *)
Definition clash_db : SQLite.sqlite_db :=
  SQLite.Catalog [("users", ["id"]); ("table_1", ["x"])].

(** A table name with a double quote inside: [a], the quote character, [b]. *)
Definition quote_name : string := "a" +:+ DQ +:+ "b".

(** Names that need quoting, and one that quoting alone does not protect. *)
Definition awkward_db : SQLite.sqlite_db :=
  SQLite.Catalog [("order", ["select"]); ("my table", ["x y"]); (quote_name, ["id"])].

(** A prefix that ends in a double quote. *)
Definition quote_prefix : string := "t" +:+ DQ.

Definition always (_ : string) : bool := true.

(** Command lines used in the concrete runs. *)
Definition dry_args : Args :=
  mkArgs "app.db" "table_" "column_" true "dm_data_renamer.log".

Definition apply_args : Args :=
  mkArgs "app.db" "table_" "column_" false "dm_data_renamer.log".

(** A process that has already used its connection on [scenario_db]. *)
Definition used_world : World SQLite.sqlite_db :=
  mkWorld scenario_db [["stale"]] true
    [Execute sql_select_tables; Commit] [(INFO, "earlier run")].

(** No double quote character occurs in [s]. *)
Fixpoint quote_free (s : string) : bool :=
  match s with
  | EmptyString => true
  | String c s' => negb (Ascii.eqb c "034") && quote_free s'
  end.

(** ** Vocabulary of the specification *)

(** [prefix+1 .. prefix+n] *)
Definition new_names (prefix : string) (n : nat) : list string :=
  map (fun i => prefix +:+ str i) (seq 1 n).

(** The mapping the specification describes: the i-th discovered name
    (1-indexed) goes to [prefix+i]. *)
Definition intended_mapping (prefix : string) (names : list string) : dict :=
  zip names (new_names prefix (length names)).

(** The [(old_name, new_name)] pairs a loop over [items] computes. *)
Definition renames (prefix : string) (items : list (nat * string)) : dict :=
  map (fun '(i, old_name) => (old_name, prefix +:+ str (i + 1))) items.

(** Field [n] of every row, when every row has one. *)
Fixpoint fields (n : nat) (rows : list row) : option (list string) :=
  match rows with
  | [] => Some []
  | r :: rows' =>
      match r !! n, fields n rows' with
      | Some x, Some xs => Some (x :: xs)
      | _, _ => None
      end
  end.

(** Sending statements one after the other, going on after a failure:
    the database reached and what each statement answered. *)
Fixpoint attempt_all {DB : Type} `{!Database DB} (d : DB) (sqls : list string)
  : DB * list (string + list row) :=
  match sqls with
  | [] => (d, [])
  | sql :: sqls' =>
      match db_execute d sql with
      | inl msg =>
          let '(d', outs) := attempt_all d sqls' in (d', inl msg :: outs)
      | inr (d1, rows) =>
          let '(d', outs) := attempt_all d1 sqls' in (d', inr rows :: outs)
      end
  end.

(** The log record of one attempted table rename. *)
Definition table_record (pair : string * string) (out : string + list row)
  : log_record :=
  match out with
  | inl msg =>
      (ERROR, msg_table_failed (fst pair) (snd pair) (sqlite3_Error msg))
  | inr _ => (INFO, msg_table_renamed (fst pair) (snd pair))
  end.

(** The log record of one attempted column rename in [table_name]. *)
Definition column_record (table_name : string) (pair : string * string)
    (out : string + list row) : log_record :=
  match out with
  | inl msg =>
      (ERROR,
       msg_column_failed (fst pair) table_name (snd pair) (sqlite3_Error msg))
  | inr _ => (INFO, msg_column_renamed (fst pair) table_name (snd pair))
  end.

(** Statements that only read the catalog. *)
Definition is_query (sql : string) : Prop :=
  sql = sql_select_tables \/ exists t, sql = sql_table_info t.

(** Calls on the connection that cannot change what is stored. *)
Definition quiet (ev : event) : Prop :=
  match ev with
  | Execute sql => is_query sql
  | Commit => False
  | Close => True
  end.

(** The engine answers queries without changing the database. *)
Definition queries_pure (DB : Type) `{!Database DB} : Prop :=
  forall (d d' : DB) sql rows,
    is_query sql -> db_execute d sql = inr (d', rows) -> d' = d.

(** Setting the pairs of [ps] one after the other, as the loops do. *)
Definition dict_set_all (ps d : dict) : dict :=
  fold_left (fun acc p => dict_set (fst p) (snd p) acc) ps d.

(** The rename statements for a list of [(old_name, new_name)] pairs. *)
Definition table_sqls (pairs : dict) : list string :=
  map (fun p => sql_rename_table (fst p) (snd p)) pairs.

Definition column_sqls (table_name : string) (pairs : dict) : list string :=
  map (fun p => sql_rename_column table_name (fst p) (snd p)) pairs.

(** What a stretch of the program leaves behind, field by field: the
    database reached, the calls added to the trace and the records added
    to the log. *)
Definition loop_post {DB : Type} (w w' : World DB) (d' : DB)
    (evs : list event) (recs : list log_record) : Prop :=
  db w' = d' /\ connected w' = connected w /\
  trace w' = trace w ++ evs /\ log w' = log w ++ recs.

(** The world once [sql] has answered with database [d1] and its rows
    have been fetched, and the world once [sql] has raised. *)
Definition fetched {DB : Type} (w : World DB) (sql : string) (d1 : DB)
  : World DB :=
  mkWorld d1 [] (connected w) (trace w ++ [Execute sql]) (log w).

Definition refused {DB : Type} (w : World DB) (sql : string) : World DB :=
  mkWorld (db w) [] (connected w) (trace w ++ [Execute sql]) (log w).

(** The specification's reading of a failed column enumeration: only the
    failing table is skipped, so the tables after it in the mapping are
    still enumerated. *)
Definition later_tables_enumerated {DB : Type} `{!Database DB}
    (prefix : string) (table_mapping : dict) (dry_run : bool) (w : World DB)
  : Prop :=
  forall before table_name after w1 msg,
    dict_values table_mapping = before ++ table_name :: after ->
    rename_columns_loop prefix dry_run before w = (Ok tt, w1) ->
    db_execute (db w1) (sql_table_info table_name) = inl msg ->
    forall t, t ∈ after ->
      Execute (sql_table_info t)
        ∈ trace (rename_columns prefix table_mapping dry_run w).2.

(** The column names a database gives for [table_name], if it answers. *)
Definition columns_under {DB : Type} `{!Database DB} (d : DB)
    (table_name : string) : option (list string) :=
  match db_execute d (sql_table_info table_name) with
  | inr (_, rows) => fields 1 rows
  | inl _ => None
  end.

(** One stretch of a dry run: the calls it adds to the trace are quiet,
    and a database whose queries are pure is left as it was. *)
Definition dry_step {DB : Type} `{!Database DB} (w w' : World DB) : Prop :=
  (exists evs, trace w' = trace w ++ evs /\ Forall quiet evs) /\
  (queries_pure DB -> db w' = db w).

Definition dry_ok {DB : Type} `{!Database DB} {A : Type} (m : M DB A) : Prop :=
  forall w, dry_step w (m w).2.

(** Two worlds that hold the same database (and, when [cursor] is set,
    the same pending rows), whatever their traces and logs. *)
Definition alike {DB : Type} (cursor : bool) (w1 w2 : World DB) : Prop :=
  db w1 = db w2 /\ (cursor = true -> pending w1 = pending w2).

(** Two runs, from [w1] and from [w2], that returned the same value and
    added the same calls and the same records. *)
Definition same_run {DB A : Type} (w1 w2 : World DB)
    (r1 r2 : result A * World DB) : Prop :=
  r1.1 = r2.1 /\
  exists evs recs,
    trace r1.2 = trace w1 ++ evs /\ trace r2.2 = trace w2 ++ evs /\
    log r1.2 = log w1 ++ recs /\ log r2.2 = log w2 ++ recs.

(** [m] behaves the same from any two worlds that are alike before, and
    leaves them alike after. *)
Definition deterministic {DB A : Type} (before after : bool) (m : M DB A)
  : Prop :=
  forall w1 w2,
    alike before w1 w2 ->
    same_run w1 w2 (m w1) (m w2) /\ alike after (m w1).2 (m w2).2.









(** ** Dictionaries and generated names *)

Lemma str_inj (i j : nat) : str i = str j -> i = j.
Proof. unfold str. apply (inj pretty). Qed.

Lemma new_name_inj (prefix : string) (i j : nat) :
  prefix +:+ str i = prefix +:+ str j -> i = j.
Proof. intros H. apply str_inj. by apply (inj (String.app prefix)) in H. Qed.

Lemma new_names_length (prefix : string) (n : nat) :
  length (new_names prefix n) = n.
Proof. unfold new_names. by rewrite length_map, length_seq. Qed.

Lemma new_names_NoDup (prefix : string) (n : nat) : NoDup (new_names prefix n).
Proof.
  unfold new_names. apply NoDup_fmap_2_strong; [|apply NoDup_seq].
  intros i j _ _. apply new_name_inj.
Qed.

Lemma new_names_lookup (prefix : string) (n i : nat) :
  i < n -> new_names prefix n !! i = Some (prefix +:+ str (i + 1)).
Proof.
  intros Hi. unfold new_names. rewrite list_lookup_fmap.
  rewrite lookup_seq_lt by done. simpl. do 3 f_equal. lia.
Qed.

Lemma renames_enumerate_from (prefix : string) (i : nat) (l : list string) :
  renames prefix (enumerate_from i l)
  = zip l (map (fun j => prefix +:+ str j) (seq (i + 1) (length l))).
Proof.
  revert i. induction l as [|x l IH]; intros i; [done|].
  simpl. f_equal. by rewrite IH.
Qed.

Lemma renames_enumerate (prefix : string) (l : list string) :
  renames prefix (enumerate l) = intended_mapping prefix l.
Proof. apply renames_enumerate_from. Qed.

Lemma renames_keys (prefix : string) (i : nat) (l : list string) :
  dict_keys (renames prefix (enumerate_from i l)) = l.
Proof.
  revert i. induction l as [|x l IH]; intros i; [done|].
  simpl. f_equal. apply IH.
Qed.

Lemma intended_mapping_keys (prefix : string) (l : list string) :
  dict_keys (intended_mapping prefix l) = l.
Proof. rewrite <- renames_enumerate. apply renames_keys. Qed.

Lemma intended_mapping_values (prefix : string) (l : list string) :
  dict_values (intended_mapping prefix l) = new_names prefix (length l).
Proof.
  unfold intended_mapping, dict_values. apply snd_zip.
  by rewrite new_names_length.
Qed.

Lemma intended_mapping_length (prefix : string) (l : list string) :
  length (intended_mapping prefix l) = length l.
Proof.
  unfold intended_mapping. rewrite length_zip_with_l_eq; [done|].
  by rewrite new_names_length.
Qed.

Lemma lookup_app_plus {A : Type} (l1 l2 : list A) (k : nat) :
  (l1 ++ l2) !! (length l1 + k) = l2 !! k.
Proof. induction l1 as [|x l1 IH]; [done|apply IH]. Qed.

Lemma dict_set_fresh (k v : string) (d : dict) :
  k ∉ dict_keys d -> dict_set k v d = d ++ [(k, v)].
Proof.
  induction d as [|[k' v'] d IH]; simpl; intros Hk; [done|].
  apply not_elem_of_cons in Hk as [Hne Hk].
  destruct (String.eqb_spec k' k) as [->|_]; [done|].
  by rewrite IH.
Qed.

Lemma dict_set_all_fresh (ps d : dict) :
  NoDup (dict_keys d ++ dict_keys ps) -> dict_set_all ps d = d ++ ps.
Proof.
  revert d. induction ps as [|[k v] ps IH]; intros d Hnd; simpl.
  - by rewrite app_nil_r.
  - unfold dict_set_all in *. simpl.
    assert (Hk : k ∉ dict_keys d).
    { apply NoDup_app in Hnd as (_ & Hdis & _). intros Hin.
      apply (Hdis k Hin). simpl. left. }
    rewrite dict_set_fresh by done. rewrite IH.
    + by rewrite <- app_assoc.
    + unfold dict_keys in *. rewrite map_app. simpl.
      rewrite <- app_assoc. done.
Qed.

Lemma dict_get_lookup (d : dict) (i : nat) (k v : string) :
  NoDup (dict_keys d) -> d !! i = Some (k, v) -> dict_get k d = Some v.
Proof.
  revert i. induction d as [|[k' v'] d IH]; intros i Hnd Hi; [done|].
  simpl in *. apply NoDup_cons in Hnd as [Hk' Hnd].
  destruct i as [|i]; simpl in Hi.
  - injection Hi as -> ->. by rewrite String.eqb_refl.
  - destruct (String.eqb_spec k' k) as [->|_]; [|by eapply IH].
    exfalso. apply Hk'. apply list_elem_of_lookup. exists i.
    unfold dict_keys. change (map fst d) with (fst <$> d).
    rewrite list_lookup_fmap, Hi. done.
Qed.

Lemma intended_mapping_get (prefix : string) (l : list string) (i : nat)
    (old_name : string) :
  NoDup l -> l !! i = Some old_name ->
  dict_get old_name (intended_mapping prefix l) = Some (prefix +:+ str (i + 1)).
Proof.
  intros Hnd Hi. apply (dict_get_lookup _ i).
  - by rewrite intended_mapping_keys.
  - unfold intended_mapping. apply lookup_zip_with_Some.
    exists old_name, (prefix +:+ str (i + 1)). split_and!; [done|done|].
    apply new_names_lookup. by eapply lookup_lt_Some.
Qed.

(** ** Concrete runs *)

(** Scenario A: both tables and their columns get generic names, and the
    renames are committed. *)
Example scenario_A :
  db (main always always apply_args (start scenario_db)).2
  = SQLite.Catalog [("table_1", ["column_1"; "column_2"]);
                    ("table_2", ["column_1"; "column_2"])] /\
  (rename_tables "table_" false (start scenario_db)).1
  = Ok [("users", "table_1"); ("orders", "table_2")] /\
  last (trace (main always always apply_args (start scenario_db)).2)
  = Some Close /\
  Commit ∈ trace (main always always apply_args (start scenario_db)).2.
Proof.
  split_and!; [vm_compute; reflexivity..|].
  vm_compute. do 9 right. left.
Qed.

(** Scenario C: the path does not exist; nothing is opened or sent. *)
Example scenario_C :
  main (fun _ => false) always apply_args (start scenario_db)
  = (Ok tt,
     mkWorld scenario_db [] false []
       [(ERROR, "File error: Database file not found: app.db")]).
Proof. reflexivity. Qed.

(** A generic name that is already taken: the first rename fails, the
    second one goes through, and the mapping still lists both. *)
Example clash_run :
  rename_tables "table_" false (start clash_db)
  = (Ok [("users", "table_1"); ("table_1", "table_2")],
     mkWorld (SQLite.Catalog [("users", ["id"]); ("table_2", ["x"])]) [] false
       [Execute sql_select_tables;
        Execute (sql_rename_table "users" "table_1");
        Execute (sql_rename_table "table_1" "table_2")]
       [(ERROR,
         msg_table_failed "users" "table_1"
           (sqlite3_Error
              "there is already another table or index with this name: table_1"));
        (INFO, msg_table_renamed "table_1" "table_2")]).
Proof. vm_compute. reflexivity. Qed.

(** ** The two rename loops *)

Section Loops.
Context {DB : Type} `{!Database DB}.

Lemma column_of_rows_fields (n : nat) (rows : list row) (w : World DB) :
  column_of_rows n rows w =
  match fields n rows with
  | Some xs => (Ok xs, w)
  | None => (Raise IndexError, w)
  end.
Proof.
  induction rows as [|r rows IH]; simpl; [done|].
  destruct (r !! n) as [x|]; [|done].
  unfold bind. rewrite IH. by destruct (fields n rows).
Qed.

Lemma attempt_all_cons (d : DB) (sql : string) (sqls : list string) :
  attempt_all d (sql :: sqls) =
  match db_execute d sql with
  | inl msg =>
      ((attempt_all d sqls).1, inl msg :: (attempt_all d sqls).2)
  | inr (d1, rows) =>
      ((attempt_all d1 sqls).1, inr rows :: (attempt_all d1 sqls).2)
  end.
Proof.
  simpl. destruct (db_execute d sql) as [msg|[d1 rows]].
  - by destruct (attempt_all d sqls).
  - by destruct (attempt_all d1 sqls).
Qed.

Lemma attempt_all_length (d : DB) (sqls : list string) :
  length (attempt_all d sqls).2 = length sqls.
Proof.
  revert d. induction sqls as [|sql sqls IH]; intros d; [done|].
  rewrite attempt_all_cons.
  destruct (db_execute d sql) as [msg|[d1 rows]]; simpl; by rewrite IH.
Qed.

Lemma rename_tables_loop_apply (prefix : string) (items : list (nat * string))
    (m : dict) (w : World DB) :
  exists w',
    rename_tables_loop prefix false items m w
    = (Ok (dict_set_all (renames prefix items) m), w') /\
    loop_post w w'
      (attempt_all (db w) (table_sqls (renames prefix items))).1
      (map Execute (table_sqls (renames prefix items)))
      (zip_with table_record (renames prefix items)
         (attempt_all (db w) (table_sqls (renames prefix items))).2).
Proof.
  revert m w. induction items as [|[i old_name] items IH]; intros m w.
  - exists w. split; [done|]. unfold loop_post. simpl.
    by rewrite !app_nil_r.
  - cbn [renames map table_sqls fst snd]. fold (renames prefix items).
    fold (table_sqls (renames prefix items)).
    rewrite attempt_all_cons.
    cbn [rename_tables_loop negb]. unfold bind at 1.
    unfold try_except_sqlite3, bind at 1, cursor_execute.
    destruct (db_execute (db w) _) as [msg|[d1 rows]]; cbn [fst snd].
    + unfold logging_error, logging at 1.
      match goal with |- context [rename_tables_loop _ _ _ ?m' ?w1] =>
        destruct (IH m' w1) as (w' & Hrun & Hdb & Hconn & Htr & Hlog) end.
      exists w'. split; [exact Hrun|]. cbn in Hdb, Hconn, Htr, Hlog.
      unfold loop_post. split_and!; [done|done|..].
      * rewrite Htr. by rewrite <- app_assoc.
      * rewrite Hlog. by rewrite <- app_assoc.
    + unfold logging_info, logging at 1.
      match goal with |- context [rename_tables_loop _ _ _ ?m' ?w1] =>
        destruct (IH m' w1) as (w' & Hrun & Hdb & Hconn & Htr & Hlog) end.
      exists w'. split; [exact Hrun|]. cbn in Hdb, Hconn, Htr, Hlog.
      unfold loop_post. split_and!; [done|done|..].
      * rewrite Htr. by rewrite <- app_assoc.
      * rewrite Hlog. by rewrite <- app_assoc.
Qed.

Lemma rename_tables_loop_dry (prefix : string) (items : list (nat * string))
    (m : dict) (w : World DB) :
  rename_tables_loop prefix true items m w
  = (Ok (dict_set_all (renames prefix items) m),
     mkWorld (db w) (pending w) (connected w) (trace w)
       (log w ++ map (fun p => (INFO, msg_table_dry (fst p) (snd p)))
                     (renames prefix items))).
Proof.
  revert m w. induction items as [|[i old_name] items IH]; intros m w.
  - simpl. unfold ret. rewrite app_nil_r. by destruct w.
  - cbn [rename_tables_loop negb]. unfold bind at 1.
    unfold logging_info, logging at 1. rewrite IH. cbn.
    by rewrite <- app_assoc.
Qed.

Lemma rename_columns_inner_apply (prefix table_name : string)
    (items : list (nat * string)) (m : dict) (w : World DB) :
  exists w',
    rename_columns_inner prefix table_name false items m w
    = (Ok (dict_set_all (renames prefix items) m), w') /\
    loop_post w w'
      (attempt_all (db w) (column_sqls table_name (renames prefix items))).1
      (map Execute (column_sqls table_name (renames prefix items)))
      (zip_with (column_record table_name) (renames prefix items)
         (attempt_all (db w) (column_sqls table_name (renames prefix items))).2).
Proof.
  revert m w. induction items as [|[i old_name] items IH]; intros m w.
  - exists w. split; [done|]. unfold loop_post. simpl.
    by rewrite !app_nil_r.
  - cbn [renames map column_sqls fst snd]. fold (renames prefix items).
    fold (column_sqls table_name (renames prefix items)).
    rewrite attempt_all_cons.
    cbn [rename_columns_inner negb]. unfold bind at 1.
    unfold try_except_sqlite3, bind at 1, cursor_execute.
    destruct (db_execute (db w) _) as [msg|[d1 rows]]; cbn [fst snd];
      [unfold logging_error, logging at 1|unfold logging_info, logging at 1];
      (match goal with |- context [rename_columns_inner _ _ _ _ ?m' ?w1] =>
         destruct (IH m' w1) as (w' & Hrun & Hdb & Hconn & Htr & Hlog) end;
       exists w'; split; [exact Hrun|]; cbn in Hdb, Hconn, Htr, Hlog;
       unfold loop_post; split_and!; [done|done|..];
       [rewrite Htr|rewrite Hlog]; by rewrite <- app_assoc).
Qed.

Lemma rename_columns_inner_dry (prefix table_name : string)
    (items : list (nat * string)) (m : dict) (w : World DB) :
  rename_columns_inner prefix table_name true items m w
  = (Ok (dict_set_all (renames prefix items) m),
     mkWorld (db w) (pending w) (connected w) (trace w)
       (log w ++ map (fun p => (INFO, msg_column_dry (fst p) table_name (snd p)))
                     (renames prefix items))).
Proof.
  revert m w. induction items as [|[i old_name] items IH]; intros m w.
  - simpl. unfold ret. rewrite app_nil_r. by destruct w.
  - cbn [rename_columns_inner negb]. unfold bind at 1.
    unfold logging_info, logging at 1. rewrite IH. cbn.
    by rewrite <- app_assoc.
Qed.

(** With distinct names the dictionary a loop builds from an empty one is
    the intended mapping. *)
Lemma dict_set_all_enumerate (prefix : string) (names : list string) :
  NoDup names ->
  dict_set_all (renames prefix (enumerate names)) [] = intended_mapping prefix names.
Proof.
  intros Hnd. rewrite dict_set_all_fresh.
  - by rewrite renames_enumerate.
  - simpl. unfold enumerate. by rewrite renames_keys.
Qed.

(** [rename_tables] by what its first statement answers. *)
Lemma rename_tables_cases (prefix : string) (dry_run : bool) (w : World DB) :
  rename_tables prefix dry_run w =
  match db_execute (db w) sql_select_tables with
  | inl msg =>
      (Ok [],
       mkWorld (db w) [] (connected w)
         (trace w ++ [Execute sql_select_tables])
         (log w ++ [(ERROR, "Error during table renaming: " +:+ msg)]))
  | inr (d1, rows) =>
      match fields 0 rows with
      | Some tables =>
          rename_tables_loop prefix dry_run (enumerate tables) []
            (fetched w sql_select_tables d1)
      | None => (Raise IndexError, fetched w sql_select_tables d1)
      end
  end.
Proof.
  unfold rename_tables, try_except_sqlite3.
  unfold bind at 1. unfold cursor_execute.
  destruct (db_execute (db w) sql_select_tables) as [msg|[d1 rows]]; [done|].
  unfold bind at 1. unfold cursor_fetchall. cbn [pending db connected trace log].
  unfold bind at 1. rewrite column_of_rows_fields.
  fold (fetched w sql_select_tables d1).
  destruct (fields 0 rows) as [tables|]; [|done].
  destruct dry_run.
  - by rewrite rename_tables_loop_dry.
  - destruct (rename_tables_loop_apply prefix (enumerate tables) []
                (fetched w sql_select_tables d1)) as (w' & Hrun & _).
    by rewrite Hrun.
Qed.

Lemma rename_tables_enumerated (prefix : string) (dry_run : bool)
    (w : World DB) (d1 : DB) (rows : list row) (tables : list string) :
  db_execute (db w) sql_select_tables = inr (d1, rows) ->
  fields 0 rows = Some tables ->
  rename_tables prefix dry_run w
  = rename_tables_loop prefix dry_run (enumerate tables) []
      (fetched w sql_select_tables d1).
Proof. intros Hsel Hrows. by rewrite rename_tables_cases, Hsel, Hrows. Qed.

End Loops.

(** ** The table renamer *)

Section TableRenamer.
Context {DB : Type} `{!Database DB}.

(** C1: when the catalog query answers with the (distinct) table names
    [tables], [rename_tables] returns, in dry-run or not and whatever the
    rename statements do, the mapping with one entry per table, keyed by
    the original names in discovery order, whose i-th value (1-indexed)
    is [prefix+i]; it has N entries and its values are [prefix+1 ..
    prefix+N], without duplicates. *)
Theorem rename_tables_mapping (prefix : string) (dry_run : bool) (w : World DB)
    (d1 : DB) (rows : list row) (tables : list string) :
  db_execute (db w) sql_select_tables = inr (d1, rows) ->
  fields 0 rows = Some tables ->
  NoDup tables ->
  (rename_tables prefix dry_run w).1 = Ok (intended_mapping prefix tables) /\
  length (intended_mapping prefix tables) = length tables /\
  dict_keys (intended_mapping prefix tables) = tables /\
  dict_values (intended_mapping prefix tables)
    = new_names prefix (length tables) /\
  NoDup (dict_values (intended_mapping prefix tables)) /\
  (forall i old_name,
      tables !! i = Some old_name ->
      dict_get old_name (intended_mapping prefix tables)
      = Some (prefix +:+ str (i + 1))).
Proof.
  intros Hsel Hrows Hnd. split_and!.
  - rewrite (rename_tables_enumerated _ _ _ _ _ _ Hsel Hrows).
    destruct dry_run.
    + rewrite rename_tables_loop_dry. simpl.
      by rewrite dict_set_all_enumerate.
    + match goal with |- context [rename_tables_loop _ _ _ ?m' ?w1] =>
        destruct (rename_tables_loop_apply prefix (enumerate tables) m' w1)
          as (w' & Hrun & _) end.
      rewrite Hrun. simpl. by rewrite dict_set_all_enumerate.
  - apply intended_mapping_length.
  - apply intended_mapping_keys.
  - apply intended_mapping_values.
  - rewrite intended_mapping_values. apply new_names_NoDup.
  - intros i old_name. by apply intended_mapping_get.
Qed.

(** C4: in a run that is not a dry run, every table's rename statement
    is sent, in order, whatever the earlier ones answered; the log gets,
    per table, the record that fits the answer to its own statement; the
    mapping returned is the intended one.  So when the statement for the
    k-th table fails, its failure record is in the log, the table keeps
    its entry [prefix+k], and the other tables are attempted all the
    same. *)
Theorem rename_tables_partial_failure (prefix : string) (w : World DB)
    (d1 : DB) (rows : list row) (tables : list string) :
  db_execute (db w) sql_select_tables = inr (d1, rows) ->
  fields 0 rows = Some tables ->
  NoDup tables ->
  exists w',
    rename_tables prefix false w = (Ok (intended_mapping prefix tables), w') /\
    trace w' = trace w ++ Execute sql_select_tables
                 :: map Execute (table_sqls (intended_mapping prefix tables)) /\
    db w' = (attempt_all d1 (table_sqls (intended_mapping prefix tables))).1 /\
    log w' = log w ++
      zip_with table_record (intended_mapping prefix tables)
        (attempt_all d1 (table_sqls (intended_mapping prefix tables))).2 /\
    (forall k old_name msg,
        tables !! k = Some old_name ->
        (attempt_all d1 (table_sqls (intended_mapping prefix tables))).2 !! k
        = Some (inl msg) ->
        log w' !! (length (log w) + k)
        = Some (ERROR,
                msg_table_failed old_name (prefix +:+ str (k + 1))
                  (sqlite3_Error msg)) /\
        dict_get old_name (intended_mapping prefix tables)
        = Some (prefix +:+ str (k + 1))).
Proof.
  intros Hsel Hrows Hnd.
  rewrite (rename_tables_enumerated _ _ _ _ _ _ Hsel Hrows).
  match goal with |- context [rename_tables_loop _ _ _ ?m' ?w1] =>
    destruct (rename_tables_loop_apply prefix (enumerate tables) m' w1)
      as (w' & Hrun & Hdb & _ & Htr & Hlog) end.
  rewrite dict_set_all_enumerate in Hrun by done.
  rewrite renames_enumerate in Hdb, Htr, Hlog. cbn in Hdb, Htr, Hlog.
  exists w'. split_and!; [done| |done|done|].
  - rewrite Htr. by rewrite <- app_assoc.
  - intros k old_name msg Hk Hout. split.
    + rewrite Hlog. etrans; [apply lookup_app_plus|].
      apply lookup_zip_with_Some.
      exists (old_name, prefix +:+ str (k + 1)), (inl msg).
      split_and!; [reflexivity| |exact Hout].
      unfold intended_mapping. apply lookup_zip_with_Some.
      exists old_name, (prefix +:+ str (k + 1)). split_and!; [done|done|].
      apply new_names_lookup. by eapply lookup_lt_Some.
    + by apply intended_mapping_get.
Qed.

(** C6: when the catalog query raises, [rename_tables] returns the
    empty mapping; the query is the only statement it has sent, the
    database is as it was, and the failure is logged. *)
Theorem rename_tables_enumeration_failure (prefix : string) (dry_run : bool)
    (w : World DB) (msg : string) :
  db_execute (db w) sql_select_tables = inl msg ->
  rename_tables prefix dry_run w
  = (Ok [],
     mkWorld (db w) [] (connected w)
       (trace w ++ [Execute sql_select_tables])
       (log w ++ [(ERROR, "Error during table renaming: " +:+ msg)])).
Proof.
  intros Hsel. unfold rename_tables, try_except_sqlite3.
  unfold bind at 1. unfold cursor_execute. by rewrite Hsel.
Qed.

End TableRenamer.

Lemma rename_tables_mapping_witness :
  NoDup ["users"; "orders"] /\
  (rename_tables "table_" false (start scenario_db)).1
  = Ok (intended_mapping "table_" ["users"; "orders"]) /\
  dict_values (intended_mapping "table_" ["users"; "orders"])
  = new_names "table_" 2.
Proof.
  assert (Hnd : NoDup ["users"; "orders"]).
  { apply (bool_decide_unpack _). vm_compute. exact I. }
  split; [exact Hnd|].
  destruct (rename_tables_mapping "table_" false (start scenario_db)
              scenario_db [["users"]; ["orders"]] ["users"; "orders"]
              eq_refl eq_refl Hnd) as (Hmap & _ & _ & Hvals & _).
  split; [exact Hmap|exact Hvals].
Defined.

Lemma rename_tables_partial_failure_witness :
  NoDup ["users"; "table_1"] /\
  exists w',
    rename_tables "table_" false (start clash_db)
    = (Ok (intended_mapping "table_" ["users"; "table_1"]), w') /\
    log w' !! 0
    = Some (ERROR,
            msg_table_failed "users" "table_1"
              (sqlite3_Error
                 "there is already another table or index with this name: table_1")) /\
    dict_get "users" (intended_mapping "table_" ["users"; "table_1"])
    = Some "table_1".
Proof.
  assert (Hnd : NoDup ["users"; "table_1"]).
  { apply (bool_decide_unpack _). vm_compute. exact I. }
  split; [exact Hnd|].
  destruct (rename_tables_partial_failure "table_" (start clash_db)
              clash_db [["users"]; ["table_1"]] ["users"; "table_1"]
              eq_refl eq_refl Hnd) as (w' & Hrun & _ & _ & _ & Hfail).
  exists w'. split; [exact Hrun|].
  exact (Hfail 0 "users"
           "there is already another table or index with this name: table_1"
           eq_refl eq_refl).
Defined.

Lemma rename_tables_enumeration_failure_witness :
  rename_tables "table_" false (start SQLite.NotADatabase)
  = (Ok [],
     mkWorld SQLite.NotADatabase [] false [Execute sql_select_tables]
       [(ERROR, "Error during table renaming: file is not a database")]).
Proof.
  exact (rename_tables_enumeration_failure "table_" false
           (start SQLite.NotADatabase) "file is not a database" eq_refl).
Defined.

(** ** The column renamer *)

Section ColumnRenamer.
Context {DB : Type} `{!Database DB}.

Lemma rename_columns_loop_refused (prefix : string) (dry_run : bool)
    (table_name : string) (rest : list string) (w : World DB) (msg : string) :
  db_execute (db w) (sql_table_info table_name) = inl msg ->
  rename_columns_loop prefix dry_run (table_name :: rest) w
  = (Raise (sqlite3_Error msg), refused w (sql_table_info table_name)).
Proof.
  intros Hq. cbn [rename_columns_loop]. unfold bind at 1.
  unfold cursor_execute. by rewrite Hq.
Qed.

Lemma rename_columns_loop_fetched (prefix : string) (dry_run : bool)
    (table_name : string) (rest : list string) (w : World DB) (d1 : DB)
    (rows : list row) (columns : list string) :
  db_execute (db w) (sql_table_info table_name) = inr (d1, rows) ->
  fields 1 rows = Some columns ->
  rename_columns_loop prefix dry_run (table_name :: rest) w
  = rename_columns_loop prefix dry_run rest
      (rename_columns_inner prefix table_name dry_run (enumerate columns) []
         (fetched w (sql_table_info table_name) d1)).2.
Proof.
  intros Hq Hrows. cbn [rename_columns_loop]. unfold bind at 1.
  unfold cursor_execute. rewrite Hq.
  unfold bind at 1. unfold cursor_fetchall. cbn [pending db connected trace log].
  unfold bind at 1. rewrite column_of_rows_fields, Hrows.
  unfold bind at 1. fold (fetched w (sql_table_info table_name) d1).
  destruct dry_run.
  - by rewrite rename_columns_inner_dry.
  - destruct (rename_columns_inner_apply prefix table_name (enumerate columns)
                [] (fetched w (sql_table_info table_name) d1))
      as (w' & Hrun & _).
    by rewrite Hrun.
Qed.

Lemma rename_columns_loop_app (prefix : string) (dry_run : bool)
    (l1 l2 : list string) (w w1 : World DB) :
  rename_columns_loop prefix dry_run l1 w = (Ok tt, w1) ->
  rename_columns_loop prefix dry_run (l1 ++ l2) w
  = rename_columns_loop prefix dry_run l2 w1.
Proof.
  revert w. induction l1 as [|t l1 IH]; intros w Hrun.
  - simpl in Hrun. unfold ret in Hrun. by injection Hrun as ->.
  - revert Hrun. cbn [rename_columns_loop app]. unfold bind.
    destruct (cursor_execute (sql_table_info t) w) as [[[]|e] w2]; [|done].
    destruct (cursor_fetchall w2) as [[rows|e] w3]; [|done].
    destruct (column_of_rows 1 rows w3) as [[columns|e] w4]; [|done].
    destruct (rename_columns_inner prefix t dry_run (enumerate columns) [] w4)
      as [[m|e] w5]; [|done].
    apply IH.
Qed.

(** C7: whenever [rename_columns] reaches a table whose enumeration
    answers with the (distinct) column names [columns], in whatever state
    earlier tables left the run, the column mapping built for that table
    is the one that gives the i-th column (1-indexed) the name
    [prefix+i]: its values are [prefix+1 .. prefix+M] for the M columns
    of this table.  The rename statements sent (when not a dry run) and
    the intentions logged (in a dry run) carry these names, and the loop
    then goes on with the remaining tables. *)
Theorem column_numbering_restarts (prefix : string) (dry_run : bool)
    (table_name : string) (rest : list string) (w : World DB) (d1 : DB)
    (rows : list row) (columns : list string) :
  db_execute (db w) (sql_table_info table_name) = inr (d1, rows) ->
  fields 1 rows = Some columns ->
  NoDup columns ->
  exists w2,
    rename_columns_inner prefix table_name dry_run (enumerate columns) []
      (fetched w (sql_table_info table_name) d1)
    = (Ok (intended_mapping prefix columns), w2) /\
    dict_keys (intended_mapping prefix columns) = columns /\
    dict_values (intended_mapping prefix columns)
    = new_names prefix (length columns) /\
    rename_columns_loop prefix dry_run (table_name :: rest) w
    = rename_columns_loop prefix dry_run rest w2 /\
    trace w2
    = trace w ++ Execute (sql_table_info table_name) ::
        (if dry_run then []
         else map Execute
                (column_sqls table_name (intended_mapping prefix columns))) /\
    log w2
    = log w ++
        (if dry_run then
           map (fun p => (INFO, msg_column_dry (fst p) table_name (snd p)))
             (intended_mapping prefix columns)
         else
           zip_with (column_record table_name) (intended_mapping prefix columns)
             (attempt_all d1
                (column_sqls table_name (intended_mapping prefix columns))).2).
Proof.
  intros Hq Hrows Hnd.
  rewrite (rename_columns_loop_fetched _ _ _ _ _ _ _ _ Hq Hrows).
  destruct dry_run.
  - rewrite rename_columns_inner_dry.
    rewrite dict_set_all_enumerate, renames_enumerate by done.
    eexists. split; [reflexivity|].
    split_and!; [apply intended_mapping_keys|apply intended_mapping_values|
                 done|done|done].
  - destruct (rename_columns_inner_apply prefix table_name (enumerate columns)
                [] (fetched w (sql_table_info table_name) d1))
      as (w2 & Hrun & _ & _ & Htr & Hlog).
    rewrite dict_set_all_enumerate in Hrun by done.
    rewrite renames_enumerate in Htr, Hlog. cbn in Htr, Hlog.
    exists w2. rewrite Hrun.
    split_and!; [done|apply intended_mapping_keys|apply intended_mapping_values|
                 done| |done].
    rewrite Htr. by rewrite <- app_assoc.
Qed.

(** C5, as the code has it: when the enumeration of one table's columns
    raises, [rename_columns] logs the error and returns at once.  The
    tables before it have been processed; neither the failing table nor
    any table after it in the mapping is touched. *)
Theorem rename_columns_stops_at_failure (prefix : string) (dry_run : bool)
    (table_mapping : dict) (before : list string) (table_name : string)
    (after : list string) (w w1 : World DB) (msg : string) :
  dict_values table_mapping = before ++ table_name :: after ->
  rename_columns_loop prefix dry_run before w = (Ok tt, w1) ->
  db_execute (db w1) (sql_table_info table_name) = inl msg ->
  rename_columns prefix table_mapping dry_run w
  = (Ok tt,
     mkWorld (db w1) [] (connected w1)
       (trace w1 ++ [Execute (sql_table_info table_name)])
       (log w1 ++ [(ERROR, "Error during column renaming: " +:+ msg)])).
Proof.
  intros Hvals Hbefore Hq. unfold rename_columns, try_except_sqlite3.
  rewrite Hvals, (rename_columns_loop_app _ _ _ _ _ _ Hbefore).
  by rewrite (rename_columns_loop_refused _ _ _ _ _ _ Hq).
Qed.

End ColumnRenamer.

Lemma column_numbering_restarts_witness :
  NoDup ["id"; "name"] /\
  exists w2,
    rename_columns_inner "column_" "users" false (enumerate ["id"; "name"]) []
      (fetched (start scenario_db) (sql_table_info "users") scenario_db)
    = (Ok (intended_mapping "column_" ["id"; "name"]), w2) /\
    dict_values (intended_mapping "column_" ["id"; "name"])
    = new_names "column_" 2.
Proof.
  assert (Hnd : NoDup ["id"; "name"]).
  { apply (bool_decide_unpack _). vm_compute. exact I. }
  split; [exact Hnd|].
  destruct (column_numbering_restarts "column_" false "users" ["orders"]
              (start scenario_db) scenario_db
              (map SQLite.table_info_row (enumerate ["id"; "name"]))
              ["id"; "name"] eq_refl eq_refl Hnd)
    as (w2 & Hrun & _ & Hvals & _).
  exists w2. split; [exact Hrun|exact Hvals].
Defined.

Lemma rename_columns_stops_at_failure_witness :
  exists w1,
    rename_columns_loop "column_" true ["users"] (start scenario_db)
    = (Ok tt, w1) /\
    db_execute (db w1) (sql_table_info quote_name) = inl "syntax error" /\
    rename_columns "column_"
      [("a", "users"); ("b", quote_name); ("c", "orders")] true
      (start scenario_db)
    = (Ok tt,
       mkWorld (db w1) [] (connected w1)
         (trace w1 ++ [Execute (sql_table_info quote_name)])
         (log w1 ++ [(ERROR, "Error during column renaming: syntax error")])).
Proof.
  eexists. split; [vm_compute; reflexivity|]. split; [reflexivity|].
  apply (rename_columns_stops_at_failure "column_" true
           [("a", "users"); ("b", quote_name); ("c", "orders")]
           ["users"] quote_name ["orders"] (start scenario_db) _
           "syntax error");
    reflexivity.
Defined.

(** C5, as the specification has it, fails: with the table prefix
    [quote_prefix] the first generic name cannot be enumerated, and the
    second one is never asked for. *)
Lemma later_tables_enumerated_counterexample :
  ~ later_tables_enumerated "column_"
      (intended_mapping quote_prefix ["users"; "orders"]) true
      (start scenario_db).
Proof.
  intros Hclaim.
  specialize (Hclaim [] (quote_prefix +:+ "1") [quote_prefix +:+ "2"]
                (start scenario_db) "syntax error" eq_refl eq_refl eq_refl
                (quote_prefix +:+ "2")).
  specialize (Hclaim ltac:(apply list_elem_of_singleton; reflexivity)).
  vm_compute in Hclaim. apply list_elem_of_singleton in Hclaim.
  discriminate Hclaim.
Qed.

(** C3 at a concrete dry run of Scenario A: the tables keep their names
    [users] and [orders], yet the columns are asked for under [table_1]
    and [table_2]; no such table exists, no column is found, and no
    column record reaches the log. *)
Theorem dry_run_enumerates_under_new_names :
  trace (main always always dry_args (start scenario_db)).2
  = [Execute sql_select_tables;
     Execute (sql_table_info "table_1");
     Execute (sql_table_info "table_2");
     Close] /\
  db (main always always dry_args (start scenario_db)).2 = scenario_db /\
  columns_under scenario_db "users" = Some ["id"; "name"] /\
  columns_under scenario_db "table_1" = Some [] /\
  log (main always always dry_args (start scenario_db)).2
  = [(INFO, msg_table_dry "users" "table_1");
     (INFO, msg_table_dry "orders" "table_2");
     (WARNING, msg_fk_warning);
     (INFO, msg_fk_dry);
     (INFO, "Dry run completed. No changes were applied to the database.");
     (INFO, "Database connection closed.")].
Proof. split_and!; vm_compute; reflexivity. Qed.

(** ** Dry runs *)

Section DryRun.
Context {DB : Type} `{!Database DB}.

Lemma dry_step_refl (w : World DB) : dry_step w w.
Proof.
  split; [|done]. exists []. split; [by rewrite app_nil_r|constructor].
Qed.

Lemma dry_step_trans (w1 w2 w3 : World DB) :
  dry_step w1 w2 -> dry_step w2 w3 -> dry_step w1 w3.
Proof.
  intros [(evs1 & Ht1 & Hq1) Hd1] [(evs2 & Ht2 & Hq2) Hd2]. split.
  - exists (evs1 ++ evs2). split.
    + by rewrite Ht2, Ht1, <- app_assoc.
    + by apply Forall_app.
  - intros Hpure. by rewrite Hd2, Hd1.
Qed.

Lemma dry_ok_ret {A : Type} (a : A) : dry_ok (ret (DB:=DB) a).
Proof. intros w. apply dry_step_refl. Qed.

Lemma dry_ok_raise {A : Type} (e : exn) : dry_ok (raise (DB:=DB) (A:=A) e).
Proof. intros w. apply dry_step_refl. Qed.

Lemma dry_ok_bind {A B : Type} (m : M DB A) (k : A -> M DB B) :
  dry_ok m -> (forall a, dry_ok (k a)) -> dry_ok (bind m k).
Proof.
  intros Hm Hk w. unfold bind. specialize (Hm w).
  destruct (m w) as [[a|e] w1]; simpl in *; [|done].
  eapply dry_step_trans; [exact Hm|apply Hk].
Qed.

Lemma dry_ok_try {A : Type} (body : M DB A) (handler : exn -> M DB A) :
  dry_ok body -> (forall e, dry_ok (handler e)) ->
  dry_ok (try_except_sqlite3 body handler).
Proof.
  intros Hb Hh w. unfold try_except_sqlite3. specialize (Hb w).
  destruct (body w) as [[a|[msg| | |]] w1]; simpl in *; try done.
  eapply dry_step_trans; [exact Hb|apply Hh].
Qed.

Lemma dry_ok_logging (lvl : level) (msg : string) :
  dry_ok (logging (DB:=DB) lvl msg).
Proof.
  intros w. split; [|done]. exists []. simpl.
  split; [by rewrite app_nil_r|constructor].
Qed.

Lemma dry_ok_fetchall : dry_ok (cursor_fetchall (DB:=DB)).
Proof.
  intros w. split; [|done]. exists []. simpl.
  split; [by rewrite app_nil_r|constructor].
Qed.

Lemma dry_ok_connect (path : string) : dry_ok (sqlite3_connect (DB:=DB) path).
Proof.
  intros w. split; [|done]. exists []. simpl.
  split; [by rewrite app_nil_r|constructor].
Qed.

Lemma dry_ok_execute (sql : string) : is_query sql -> dry_ok (cursor_execute sql).
Proof.
  intros Hq w. unfold cursor_execute.
  destruct (db_execute (db w) sql) as [msg|[d1 rows]] eqn:Hex; simpl.
  - split; [|done]. exists [Execute sql]. split; [done|by constructor].
  - split.
    + exists [Execute sql]. split; [done|by constructor].
    + intros Hpure. by eapply Hpure.
Qed.

Lemma dry_ok_column_of_rows (n : nat) (rows : list row) :
  dry_ok (column_of_rows (DB:=DB) n rows).
Proof.
  intros w. rewrite column_of_rows_fields.
  destruct (fields n rows); apply dry_step_refl.
Qed.

Lemma dry_ok_rename_tables (prefix : string) :
  dry_ok (rename_tables (DB:=DB) prefix true).
Proof.
  unfold rename_tables. apply dry_ok_try.
  - apply dry_ok_bind; [apply dry_ok_execute; by left|intros _].
    apply dry_ok_bind; [apply dry_ok_fetchall|intros rows].
    apply dry_ok_bind; [apply dry_ok_column_of_rows|intros tables].
    intros w. rewrite rename_tables_loop_dry. split; [|done].
    exists []. simpl. split; [by rewrite app_nil_r|constructor].
  - intros e. apply dry_ok_bind; [apply dry_ok_logging|intros _].
    apply dry_ok_ret.
Qed.

Lemma dry_ok_rename_columns_loop (prefix : string) (table_names : list string) :
  dry_ok (rename_columns_loop (DB:=DB) prefix true table_names).
Proof.
  induction table_names as [|t ts IH]; [apply dry_ok_ret|].
  cbn [rename_columns_loop].
  apply dry_ok_bind; [apply dry_ok_execute; right; by exists t|intros _].
  apply dry_ok_bind; [apply dry_ok_fetchall|intros rows].
  apply dry_ok_bind; [apply dry_ok_column_of_rows|intros columns].
  apply dry_ok_bind; [|intros _; exact IH].
  intros w. rewrite rename_columns_inner_dry. split; [|done].
  exists []. simpl. split; [by rewrite app_nil_r|constructor].
Qed.

Lemma dry_ok_rename_columns (prefix : string) (table_mapping : dict) :
  dry_ok (rename_columns (DB:=DB) prefix table_mapping true).
Proof.
  unfold rename_columns. apply dry_ok_try.
  - apply dry_ok_rename_columns_loop.
  - intros e. apply dry_ok_logging.
Qed.

Lemma dry_ok_handle_foreign_key_constraints (table_mapping : dict)
    (dry_run : bool) :
  dry_ok (handle_foreign_key_constraints (DB:=DB) table_mapping dry_run).
Proof.
  unfold handle_foreign_key_constraints.
  apply dry_ok_bind; [apply dry_ok_logging|intros _].
  destruct dry_run; apply dry_ok_logging.
Qed.

Lemma dry_ok_validate (os_path_exists os_path_isfile : string -> bool)
    (db_path : string) :
  dry_ok (validate_database_path (DB:=DB) os_path_exists os_path_isfile db_path).
Proof.
  unfold validate_database_path.
  destruct (negb (os_path_exists db_path)); [apply dry_ok_raise|].
  destruct (negb (os_path_isfile db_path)); [apply dry_ok_raise|apply dry_ok_ret].
Qed.

Lemma dry_ok_main (os_path_exists os_path_isfile : string -> bool)
    (args : Args) :
  arg_dry_run args = true ->
  dry_ok (main (DB:=DB) os_path_exists os_path_isfile args).
Proof.
  intros Hdry w. unfold main.
  assert (Htry : dry_ok (main_try (DB:=DB) os_path_exists os_path_isfile args)).
  { unfold main_try. rewrite Hdry.
    apply dry_ok_bind; [apply dry_ok_validate|intros _].
    apply dry_ok_bind; [apply dry_ok_connect|intros _].
    apply dry_ok_bind; [apply dry_ok_rename_tables|intros table_mapping].
    apply dry_ok_bind; [apply dry_ok_rename_columns|intros _].
    apply dry_ok_bind; [apply dry_ok_handle_foreign_key_constraints|intros _].
    apply dry_ok_logging. }
  specialize (Htry w). destruct (main_try _ _ args w) as [r w1]. simpl in Htry.
  assert (Hexc : exists w2,
             (let '(_, w2) :=
                match r with
                | Ok _ => (Ok tt, w1)
                | Raise e => main_except e w1
                end in main_finally w2) = main_finally w2 /\ dry_step w1 w2).
  { destruct r as [[]|e].
    - exists w1. split; [done|apply dry_step_refl].
    - pose proof (fun lvl msg => dry_ok_logging lvl msg w1) as Hlog.
      destruct e; cbn [main_except];
        (eexists; split; [reflexivity|apply Hlog]). }
  destruct Hexc as (w2 & -> & H12).
  eapply dry_step_trans; [exact Htry|].
  eapply dry_step_trans; [exact H12|].
  unfold main_finally. destruct (connected w2); [|apply dry_step_refl].
  simpl. split; [|done]. exists [Close]. split; [done|by constructor].
Qed.

Lemma rename_tables_same_mapping (prefix : string) (w : World DB) :
  (rename_tables prefix true w).1 = (rename_tables prefix false w).1.
Proof.
  rewrite !rename_tables_cases.
  destruct (db_execute (db w) sql_select_tables) as [msg|[d1 rows]]; [done|].
  destruct (fields 0 rows) as [tables|]; [|done].
  rewrite rename_tables_loop_dry.
  destruct (rename_tables_loop_apply prefix (enumerate tables) []
              (fetched w sql_select_tables d1)) as (w' & Hrun & _).
  by rewrite Hrun.
Qed.

(** C2: in a dry run the whole program ([rename_tables], then
    [rename_columns], then the advisory and the end of [main]) adds only
    quiet calls to the trace: catalog queries and the final close, never
    a rename statement and never a commit.  A database that answers
    queries without changing is therefore exactly as it was when the
    process ends.  And [rename_tables] returns the same value in a dry
    run as it does, from the same state, when the renames are applied. *)
Theorem dry_run_changes_nothing (os_path_exists os_path_isfile : string -> bool)
    (args : Args) (w : World DB) :
  arg_dry_run args = true ->
  (exists evs,
      trace (main os_path_exists os_path_isfile args w).2 = trace w ++ evs /\
      Forall quiet evs) /\
  (queries_pure DB ->
   db (main os_path_exists os_path_isfile args w).2 = db w) /\
  (forall w0 : World DB,
      (rename_tables (arg_prefix_table args) true w0).1
      = (rename_tables (arg_prefix_table args) false w0).1).
Proof.
  intros Hdry.
  destruct (dry_ok_main os_path_exists os_path_isfile args Hdry w)
    as [Htrace Hdb].
  split_and!; [exact Htrace|exact Hdb|].
  intros w0. apply rename_tables_same_mapping.
Qed.

End DryRun.

Lemma parse_sql_table_info (t : string) :
  SQLite.parse (sql_table_info t)
  = SQLite.parse_table_info (DQ +:+ t +:+ DQ +:+ ");").
Proof. reflexivity. Qed.

(** The small SQLite answers queries without changing the catalog. *)
Lemma sqlite_queries_pure : queries_pure SQLite.sqlite_db.
Proof.
  intros d d' sql rows Hq Hex. unfold db_execute, SQLite.sqlite_Database in Hex.
  destruct d as [|cat]; [done|]. unfold SQLite.execute in Hex.
  destruct Hq as [->|[t ->]].
  - vm_compute in Hex. by injection Hex as <- _.
  - rewrite parse_sql_table_info in Hex.
    unfold SQLite.parse_table_info in Hex.
    destruct (SQLite.quoted_identifier _) as [[t' rest]|]; [|done].
    destruct (String.eqb rest ");"); [|done].
    cbn in Hex. destruct (SQLite.columns_of t' cat); by injection Hex as <- _.
Qed.

Lemma dry_run_changes_nothing_witness :
  arg_dry_run dry_args = true /\
  (exists evs,
      trace (main always always dry_args (start scenario_db)).2 = [] ++ evs /\
      Forall quiet evs) /\
  db (main always always dry_args (start scenario_db)).2 = scenario_db /\
  (rename_tables "table_" true (start scenario_db)).1
  = (rename_tables "table_" false (start scenario_db)).1.
Proof.
  split; [reflexivity|].
  destruct (dry_run_changes_nothing always always dry_args (start scenario_db)
              eq_refl) as (Htrace & Hdb & Hmap).
  split_and!; [exact Htrace|exact (Hdb sqlite_queries_pure)|].
  exact (Hmap (start scenario_db)).
Defined.

(** ** Determinism *)

Section Determinism.
Context {DB : Type} `{!Database DB}.

Lemma same_run_here {A : Type} (w1 w2 : World DB) (r : result A) :
  same_run w1 w2 (r, w1) (r, w2).
Proof. split; [done|]. exists [], []. simpl. by rewrite !app_nil_r. Qed.

Lemma alike_weaken (b : bool) (w1 w2 : World DB) :
  alike true w1 w2 -> alike b w1 w2.
Proof. intros [Hdb Hp]. split; [done|]. intros _. by apply Hp. Qed.

Lemma det_weaken {A : Type} (b b' : bool) (m : M DB A) :
  deterministic false b m -> deterministic b' b m.
Proof. intros Hm w1 w2 [Hdb _]. apply Hm. by split. Qed.

Lemma det_relax {A : Type} (b b' : bool) (m : M DB A) :
  deterministic b true m -> deterministic b b' m.
Proof.
  intros Hm w1 w2 Hw. destruct (Hm w1 w2 Hw) as [Hrun Hal].
  split; [done|by apply alike_weaken].
Qed.

Lemma det_ret {A : Type} (b : bool) (a : A) : deterministic b b (ret (DB:=DB) a).
Proof. intros w1 w2 Hw. split; [apply same_run_here|done]. Qed.

Lemma det_raise {A : Type} (b : bool) (e : exn) :
  deterministic b b (raise (DB:=DB) (A:=A) e).
Proof. intros w1 w2 Hw. split; [apply same_run_here|done]. Qed.

Lemma same_run_trans {A B : Type} (w1 w2 v1 v2 : World DB)
    (r1 r2 : result A) (s1 s2 : result B * World DB) :
  same_run w1 w2 (r1, v1) (r2, v2) -> same_run v1 v2 s1 s2 ->
  same_run w1 w2 s1 s2.
Proof.
  intros [_ (evs & recs & Ht1 & Ht2 & Hl1 & Hl2)]
         [Hres (evs' & recs' & Ht1' & Ht2' & Hl1' & Hl2')].
  simpl in *. split; [done|]. exists (evs ++ evs'), (recs ++ recs').
  rewrite Ht1', Ht2', Hl1', Hl2', Ht1, Ht2, Hl1, Hl2.
  by rewrite <- !app_assoc.
Qed.

Lemma det_bind {A B : Type} (b1 b2 b3 : bool) (m : M DB A) (k : A -> M DB B) :
  deterministic b1 b2 m ->
  (forall a, deterministic b2 b3 (k a)) ->
  (b2 = b3 \/ b3 = false) ->
  deterministic b1 b3 (bind m k).
Proof.
  intros Hm Hk Hb w1 w2 Hw. unfold bind.
  destruct (Hm w1 w2 Hw) as [Hrun Hal].
  destruct (m w1) as [r1 v1], (m w2) as [r2 v2]. simpl in Hal.
  assert (r1 = r2) as <- by apply Hrun.
  destruct r1 as [a|e].
  - destruct (Hk a v1 v2 Hal) as [Hrun' Hal']. split; [|done].
    eapply same_run_trans; [exact Hrun|exact Hrun'].
  - split.
    + destruct Hrun as [_ Hd]. split; [done|exact Hd].
    + simpl. destruct Hb as [<-| ->]; [done|]. destruct Hal. by split.
Qed.

Lemma det_try {A : Type} (b1 b2 : bool) (body : M DB A)
    (handler : exn -> M DB A) :
  deterministic b1 b2 body ->
  (forall e, deterministic b2 b2 (handler e)) ->
  deterministic b1 b2 (try_except_sqlite3 body handler).
Proof.
  intros Hb Hh w1 w2 Hw. unfold try_except_sqlite3.
  destruct (Hb w1 w2 Hw) as [Hrun Hal].
  destruct (body w1) as [r1 v1], (body w2) as [r2 v2]. simpl in Hal.
  assert (r1 = r2) as <- by apply Hrun.
  destruct r1 as [a|[msg| | |]]; try (split; [exact Hrun|exact Hal]).
  destruct (Hh (sqlite3_Error msg) v1 v2 Hal) as [Hrun' Hal'].
  split; [|done]. eapply same_run_trans; [exact Hrun|exact Hrun'].
Qed.

Lemma det_execute (b : bool) (sql : string) :
  deterministic b true (cursor_execute sql).
Proof.
  intros w1 w2 [Hdb _]. unfold cursor_execute. rewrite <- Hdb.
  destruct (db_execute (db w1) sql) as [msg|[d1 rows]].
  - split; [|done]. split; [done|]. exists [Execute sql], []. simpl.
    by rewrite !app_nil_r.
  - split; [|done]. split; [done|]. exists [Execute sql], []. simpl.
    by rewrite !app_nil_r.
Qed.

Lemma det_fetchall : deterministic true true (cursor_fetchall (DB:=DB)).
Proof.
  intros w1 w2 [Hdb Hp]. unfold cursor_fetchall. rewrite (Hp eq_refl).
  split; [|done]. split; [done|]. exists [], []. simpl.
  by rewrite !app_nil_r.
Qed.

Lemma det_logging (b : bool) (lvl : level) (msg : string) :
  deterministic b b (logging (DB:=DB) lvl msg).
Proof.
  intros w1 w2 Hw. split; [|done]. split; [done|].
  exists [], [(lvl, msg)]. simpl. by rewrite !app_nil_r.
Qed.

Lemma det_column_of_rows (b : bool) (n : nat) (rows : list row) :
  deterministic b b (column_of_rows (DB:=DB) n rows).
Proof.
  intros w1 w2 Hw. rewrite !column_of_rows_fields.
  destruct (fields n rows); (split; [apply same_run_here|done]).
Qed.

Lemma det_rename_tables_loop (prefix : string) (dry_run : bool)
    (items : list (nat * string)) (m : dict) :
  deterministic true true (rename_tables_loop (DB:=DB) prefix dry_run items m).
Proof.
  revert m. induction items as [|[i old_name] items IH]; intros m.
  - apply det_ret.
  - cbn [rename_tables_loop].
    apply (det_bind true true true); [|intros _; apply IH|by left].
    destruct dry_run; cbn [negb]; [apply det_logging|].
    apply det_try; [|intros e; apply det_logging].
    apply (det_bind true true true);
      [apply det_execute|intros _; apply det_logging|by left].
Qed.

Lemma det_rename_columns_inner (prefix table_name : string) (dry_run : bool)
    (items : list (nat * string)) (m : dict) :
  deterministic true true
    (rename_columns_inner (DB:=DB) prefix table_name dry_run items m).
Proof.
  revert m. induction items as [|[i old_name] items IH]; intros m.
  - apply det_ret.
  - cbn [rename_columns_inner].
    apply (det_bind true true true); [|intros _; apply IH|by left].
    destruct dry_run; cbn [negb]; [apply det_logging|].
    apply det_try; [|intros e; apply det_logging].
    apply (det_bind true true true);
      [apply det_execute|intros _; apply det_logging|by left].
Qed.

Lemma det_rename_tables (prefix : string) (dry_run : bool) :
  deterministic false false (rename_tables (DB:=DB) prefix dry_run).
Proof.
  unfold rename_tables. apply det_relax. apply det_try.
  - apply (det_bind false true true); [apply det_execute|intros _|by left].
    apply (det_bind true true true); [apply det_fetchall|intros rows|by left].
    apply (det_bind true true true);
      [apply det_column_of_rows|intros tables|by left].
    apply det_rename_tables_loop.
  - intros e.
    apply (det_bind true true true);
      [apply det_logging|intros _; apply det_ret|by left].
Qed.

Lemma det_rename_columns_loop (prefix : string) (dry_run : bool)
    (table_names : list string) :
  deterministic false false
    (rename_columns_loop (DB:=DB) prefix dry_run table_names).
Proof.
  induction table_names as [|t ts IH]; [apply det_ret|].
  cbn [rename_columns_loop].
  apply (det_bind false true false); [apply det_execute|intros _|by right].
  apply (det_bind true true false); [apply det_fetchall|intros rows|by right].
  apply (det_bind true true false);
    [apply det_column_of_rows|intros columns|by right].
  apply (det_bind true true false);
    [apply det_rename_columns_inner|intros _|by right].
  apply det_weaken, IH.
Qed.

Lemma det_rename_columns (prefix : string) (table_mapping : dict)
    (dry_run : bool) :
  deterministic false false
    (rename_columns (DB:=DB) prefix table_mapping dry_run).
Proof.
  unfold rename_columns. apply det_try.
  - apply det_rename_columns_loop.
  - intros e. apply det_logging.
Qed.

(** C10: [rename_tables] and [rename_columns] depend on the database
    they are run against, the prefix, the mapping and the dry-run flag,
    and on nothing else in the process: from two worlds that hold the
    same database, whatever was traced, logged or left in the cursor
    before, they return the same value, send the same statements in the
    same order, log the same records and reach the same database. *)
Theorem renamers_deterministic (prefix : string) (table_mapping : dict)
    (dry_run : bool) (w1 w2 : World DB) :
  db w1 = db w2 ->
  (same_run w1 w2 (rename_tables prefix dry_run w1)
     (rename_tables prefix dry_run w2) /\
   db (rename_tables prefix dry_run w1).2
   = db (rename_tables prefix dry_run w2).2) /\
  (same_run w1 w2 (rename_columns prefix table_mapping dry_run w1)
     (rename_columns prefix table_mapping dry_run w2) /\
   db (rename_columns prefix table_mapping dry_run w1).2
   = db (rename_columns prefix table_mapping dry_run w2).2).
Proof.
  intros Hdb. assert (Hw : alike false w1 w2) by (by split).
  split.
  - destruct (det_rename_tables prefix dry_run w1 w2 Hw) as [Hrun [Hd _]].
    by split.
  - destruct (det_rename_columns prefix table_mapping dry_run w1 w2 Hw)
      as [Hrun [Hd _]].
    by split.
Qed.

End Determinism.

Lemma renamers_deterministic_witness :
  db (start scenario_db) = db used_world /\
  (rename_tables "column_" false (start scenario_db)).1
  = (rename_tables "column_" false used_world).1 /\
  db (rename_columns "column_" [("users", "users")] false (start scenario_db)).2
  = db (rename_columns "column_" [("users", "users")] false used_world).2.
Proof.
  split; [reflexivity|].
  destruct (renamers_deterministic "column_" [("users", "users")] false
              (start scenario_db) used_world eq_refl)
    as [[[Hres _] _] [_ Hdb]].
  split; [exact Hres|exact Hdb].
Defined.

(** ** The constraint advisory *)

(** C9: whatever the mapping and the flag, [handle_foreign_key_constraints]
    leaves the database, the cursor and the trace as they are and adds
    two records to the log: the warning that constraints were not dealt
    with, and an informational line that starts with [(Dry run)] exactly
    in a dry run. *)
Theorem advisory_only_warns {DB : Type} `{!Database DB} (table_mapping : dict)
    (dry_run : bool) (w : World DB) :
  handle_foreign_key_constraints table_mapping dry_run w
  = (Ok tt,
     mkWorld (db w) (pending w) (connected w) (trace w)
       (log w ++ [(WARNING, msg_fk_warning);
                  (INFO, if dry_run then "(Dry run) " +:+ msg_fk_apply
                         else msg_fk_apply)])) /\
  "(Dry run) " +:+ msg_fk_apply <> msg_fk_apply.
Proof.
  split; [|discriminate].
  unfold handle_foreign_key_constraints, bind, logging_warning, logging_info,
    logging.
  destruct dry_run; simpl; by rewrite <- app_assoc.
Qed.

(** ** Quoting of names *)

#[local] Arguments Ascii.eqb : simpl never.

Lemma quoted_body_plain (name rest : string) :
  quote_free name = true ->
  SQLite.strip_prefix DQ rest = None ->
  SQLite.quoted_body (name +:+ DQ +:+ rest) = Some (name, rest).
Proof.
  intros Hname Hrest. induction name as [|c name IH].
  - simpl. destruct rest as [|c rest]; [done|].
    simpl in *. rewrite Ascii.eqb_sym in Hrest.
    by destruct (Ascii.eqb c "034").
  - simpl in Hname. apply andb_true_iff in Hname as [Hc Hname].
    simpl. destruct (Ascii.eqb c "034"); [done|].
    by rewrite IH.
Qed.

Lemma quoted_identifier_plain (name rest : string) :
  quote_free name = true ->
  SQLite.strip_prefix DQ rest = None ->
  SQLite.quoted_identifier (DQ +:+ name +:+ DQ +:+ rest) = Some (name, rest).
Proof. intros Hname Hrest. exact (quoted_body_plain name rest Hname Hrest). Qed.

Lemma parse_sql_rename_table (old_name new_name : string) :
  SQLite.parse (sql_rename_table old_name new_name)
  = SQLite.parse_alter
      (DQ +:+ old_name +:+ DQ +:+ " RENAME TO " +:+ DQ +:+ new_name +:+ DQ
         +:+ ";").
Proof. reflexivity. Qed.

Lemma strip_rename_to (s : string) :
  SQLite.strip_prefix " RENAME TO " (" RENAME TO " +:+ s) = Some s.
Proof. reflexivity. Qed.

(** A table name without a double quote inside, wrapped as the program
    wraps it, is read back whole: spaces and reserved words are safe. *)
Lemma sql_rename_table_parses (old_name new_name : string) :
  quote_free old_name = true -> quote_free new_name = true ->
  SQLite.parse (sql_rename_table old_name new_name)
  = Some (SQLite.RenameTable old_name new_name).
Proof.
  intros Hold Hnew. rewrite parse_sql_rename_table. unfold SQLite.parse_alter.
  rewrite quoted_identifier_plain by done.
  rewrite strip_rename_to.
  by rewrite quoted_identifier_plain.
Qed.

(** C8 at a name that holds a double quote: between the quotes the
    program puts around [quote_name], the engine reads the identifier
    [a] and is left with text it cannot parse, so the statement is not a
    rename of [quote_name].  In the run over [awkward_db] the tables
    [order] and [my table] are renamed and [quote_name] is not. *)
Theorem quote_in_name_breaks_quoting :
  match SQLite.strip_prefix "ALTER TABLE "
          (sql_rename_table quote_name "table_3") with
  | Some rest => SQLite.quoted_identifier rest
  | None => None
  end
  = Some ("a", "b" +:+ DQ +:+ " RENAME TO " +:+ DQ +:+ "table_3" +:+ DQ +:+ ";") /\
  SQLite.parse (sql_rename_table quote_name "table_3") = None /\
  SQLite.parse (sql_rename_table "order" "table_1")
  = Some (SQLite.RenameTable "order" "table_1") /\
  db (main always always apply_args (start awkward_db)).2
  = SQLite.Catalog [("table_1", ["column_1"]); ("table_2", ["column_1"]);
                    (quote_name, ["id"])] /\
  (ERROR,
   msg_table_failed quote_name "table_3" (sqlite3_Error "syntax error"))
  ∈ log (main always always apply_args (start awkward_db)).2.
Proof.
  split_and!; [reflexivity|reflexivity|reflexivity|vm_compute; reflexivity|].
  vm_compute. do 2 right. left.
Qed.

(** ** What the renamers send and raise *)

Section Confinement.
Context {DB : Type} `{!Database DB}.






















End Confinement.

(** ** The whole program *)

Section WholeProgram.
Context {DB : Type} `{!Database DB}.
Context (os_path_exists os_path_isfile : string -> bool).

Lemma validate_accepts (db_path : string) (w : World DB) :
  os_path_exists db_path = true -> os_path_isfile db_path = true ->
  validate_database_path os_path_exists os_path_isfile db_path w = (Ok tt, w).
Proof.
  intros He Hf. unfold validate_database_path. by rewrite He, Hf.
Qed.

(** X1: A path that does not exist, or is not a regular file, stops [main]
    before anything is opened: the database, the cursor and the trace
    are untouched, one error record names the path, and [main] returns
    normally. *)
Theorem main_rejects_bad_path (args : Args) (w : World DB) :
  connected w = false ->
  os_path_exists (arg_database args) && os_path_isfile (arg_database args)
  = false ->
  main os_path_exists os_path_isfile args w
  = (Ok tt,
     mkWorld (db w) (pending w) false (trace w)
       (log w ++
        [(ERROR,
          if os_path_exists (arg_database args) then
            "Value error: Invalid database path: " +:+ arg_database args
              +:+ " is not a file"
          else
            "File error: Database file not found: " +:+ arg_database args)])).
Proof.
  intros Hconn Hbad. unfold main, main_try, validate_database_path.
  unfold bind at 1.
  destruct (os_path_exists (arg_database args)); simpl in Hbad.
  - rewrite Hbad. simpl. unfold main_finally. simpl. by rewrite Hconn.
  - simpl. unfold main_finally. simpl. by rewrite Hconn.
Qed.

(** What [main] runs once the connection is open. *)
Lemma main_try_connected (args : Args) (w : World DB) :
  os_path_exists (arg_database args) = true ->
  os_path_isfile (arg_database args) = true ->
  main_try os_path_exists os_path_isfile args w
  = (table_mapping <- rename_tables (arg_prefix_table args) (arg_dry_run args) ;;
     rename_columns (arg_prefix_column args) table_mapping (arg_dry_run args) ;;;
     handle_foreign_key_constraints table_mapping (arg_dry_run args) ;;;
     if negb (arg_dry_run args) then
       conn_commit ;;;
       logging_info "Database renaming completed successfully."
     else
       logging_info "Dry run completed. No changes were applied to the database.")
      (mkWorld (db w) (pending w) true (trace w) (log w)).
Proof.
  intros He Hf. unfold main_try. unfold bind at 1.
  rewrite validate_accepts by done. unfold bind at 1. done.
Qed.








End WholeProgram.

Section WellShaped.
Context {DB : Type} `{!Database DB}.
Context (os_path_exists os_path_isfile : string -> bool).





End WellShaped.

Section EdgeCases.
Context {DB : Type} `{!Database DB}.
Context (os_path_exists os_path_isfile : string -> bool).

(** X4: When the catalog query raises, the rest of [main] still runs on the
    empty mapping: nothing else is sent, the advisory is logged, a run
    that is not a dry run commits and reports that the renaming
    completed successfully, and the connection is closed. *)
Theorem main_after_failed_enumeration (args : Args) (w : World DB)
    (msg : string) :
  os_path_exists (arg_database args) = true ->
  os_path_isfile (arg_database args) = true ->
  db_execute (db w) sql_select_tables = inl msg ->
  main os_path_exists os_path_isfile args w
  = (Ok tt,
     mkWorld (db w) [] true
       (trace w ++ Execute sql_select_tables
          :: (if arg_dry_run args then [] else [Commit]) ++ [Close])
       (log w ++
        [(ERROR, "Error during table renaming: " +:+ msg);
         (WARNING, msg_fk_warning);
         (INFO, if arg_dry_run args then msg_fk_dry else msg_fk_apply);
         (INFO,
          if arg_dry_run args then
            "Dry run completed. No changes were applied to the database."
          else "Database renaming completed successfully.");
         (INFO, "Database connection closed.")])).
Proof.
  intros He Hf Hsel. unfold main. rewrite main_try_connected by done.
  unfold bind at 1. rewrite rename_tables_cases. cbn [db]. rewrite Hsel.
  destruct (arg_dry_run args);
    unfold main_finally, rename_columns, handle_foreign_key_constraints;
    unfold try_except_sqlite3, bind, conn_commit, conn_close, logging_info,
      logging_warning, logging, ret;
    simpl; rewrite <- !app_assoc; reflexivity.
Qed.

(** X5: A database without tables: the catalog query is the only statement,
    no rename is attempted or logged, and the run ends as any other. *)
Theorem main_on_empty_database (args : Args) (w : World DB) (d1 : DB) :
  os_path_exists (arg_database args) = true ->
  os_path_isfile (arg_database args) = true ->
  db_execute (db w) sql_select_tables = inr (d1, []) ->
  main os_path_exists os_path_isfile args w
  = (Ok tt,
     mkWorld d1 [] true
       (trace w ++ Execute sql_select_tables
          :: (if arg_dry_run args then [] else [Commit]) ++ [Close])
       (log w ++
        [(WARNING, msg_fk_warning);
         (INFO, if arg_dry_run args then msg_fk_dry else msg_fk_apply);
         (INFO,
          if arg_dry_run args then
            "Dry run completed. No changes were applied to the database."
          else "Database renaming completed successfully.");
         (INFO, "Database connection closed.")])).
Proof.
  intros He Hf Hsel. unfold main. rewrite main_try_connected by done.
  unfold bind at 1. rewrite rename_tables_cases. cbn [db]. rewrite Hsel.
  destruct (arg_dry_run args);
    unfold main_finally, rename_columns, handle_foreign_key_constraints;
    unfold try_except_sqlite3, bind, conn_commit, conn_close, logging_info,
      logging_warning, logging, ret;
    simpl; rewrite <- !app_assoc; reflexivity.
Qed.

(** X9: In a dry run [rename_tables] sends the catalog query and nothing
    else, and logs one intention per discovered table, in discovery
    order, naming the table and the name [prefix+i] it would get. *)
Theorem rename_tables_dry_run_effects (prefix : string) (w : World DB)
    (d1 : DB) (rows : list row) (tables : list string) :
  db_execute (db w) sql_select_tables = inr (d1, rows) ->
  fields 0 rows = Some tables ->
  (rename_tables prefix true w).2
  = mkWorld d1 [] (connected w) (trace w ++ [Execute sql_select_tables])
      (log w ++
       map (fun p => (INFO, msg_table_dry (fst p) (snd p)))
         (intended_mapping prefix tables)).
Proof.
  intros Hsel Hrows. rewrite (rename_tables_enumerated _ _ _ _ _ _ Hsel Hrows).
  rewrite rename_tables_loop_dry. by rewrite renames_enumerate.
Qed.

Lemma rename_columns_loop_not_found (prefix : string) (dry_run : bool)
    (table_names : list string) (w : World DB) :
  (forall t, t ∈ table_names ->
             db_execute (db w) (sql_table_info t) = inr (db w, [])) ->
  (rename_columns_loop prefix dry_run table_names w).1 = Ok tt /\
  db (rename_columns_loop prefix dry_run table_names w).2 = db w /\
  trace (rename_columns_loop prefix dry_run table_names w).2
  = trace w ++ map (fun t => Execute (sql_table_info t)) table_names /\
  log (rename_columns_loop prefix dry_run table_names w).2 = log w.
Proof.
  revert w. induction table_names as [|t ts IH]; intros w Hnone.
  - simpl. by rewrite app_nil_r.
  - rewrite (rename_columns_loop_fetched prefix dry_run t ts w (db w) [] []);
      [|apply Hnone; left|done].
    assert (Hinner : (rename_columns_inner prefix t dry_run (enumerate []) []
                        (fetched w (sql_table_info t) (db w))).2
                     = fetched w (sql_table_info t) (db w)) by done.
    rewrite Hinner.
    destruct (IH (fetched w (sql_table_info t) (db w)))
      as (Hr & Hd & Ht & Hl).
    { intros t' Ht'. simpl. apply Hnone. by right. }
    split_and!; [done|done| |done].
    rewrite Ht. simpl. by rewrite <- app_assoc.
Qed.

(** X10: When none of the names [rename_columns] is given is found by the
    engine (each enumeration answers without rows), it asks once for
    each name, in order, and that is all: no column is renamed and
    nothing is logged, in a dry run or not. *)
Theorem rename_columns_tables_not_found (prefix : string)
    (table_mapping : dict) (dry_run : bool) (w : World DB) :
  (forall t, t ∈ dict_values table_mapping ->
             db_execute (db w) (sql_table_info t) = inr (db w, [])) ->
  (rename_columns prefix table_mapping dry_run w).1 = Ok tt /\
  db (rename_columns prefix table_mapping dry_run w).2 = db w /\
  trace (rename_columns prefix table_mapping dry_run w).2
  = trace w ++ map (fun t => Execute (sql_table_info t))
                 (dict_values table_mapping) /\
  log (rename_columns prefix table_mapping dry_run w).2 = log w.
Proof.
  intros Hnone. unfold rename_columns, try_except_sqlite3.
  destruct (rename_columns_loop_not_found prefix dry_run
              (dict_values table_mapping) w Hnone) as (Hr & Hrest).
  destruct (rename_columns_loop prefix dry_run _ w) as [r w1].
  simpl in Hr. by subst r.
Qed.

End EdgeCases.

(** ** Names without quotes give unambiguous statements *)

Lemma sql_table_info_parses (t : string) :
  quote_free t = true ->
  SQLite.parse (sql_table_info t) = Some (SQLite.TableInfo t).
Proof.
  intros Ht. rewrite parse_sql_table_info. unfold SQLite.parse_table_info.
  by rewrite quoted_identifier_plain.
Qed.

Lemma parse_sql_rename_column (t old_name new_name : string) :
  SQLite.parse (sql_rename_column t old_name new_name)
  = SQLite.parse_alter
      (DQ +:+ t +:+ DQ +:+ " RENAME COLUMN " +:+ DQ +:+ old_name +:+ DQ
         +:+ " TO " +:+ DQ +:+ new_name +:+ DQ +:+ ";").
Proof. reflexivity. Qed.

Lemma strip_rename_to_column (s : string) :
  SQLite.strip_prefix " RENAME TO " (" RENAME COLUMN " +:+ s) = None.
Proof. reflexivity. Qed.

Lemma strip_rename_column (s : string) :
  SQLite.strip_prefix " RENAME COLUMN " (" RENAME COLUMN " +:+ s) = Some s.
Proof. reflexivity. Qed.

Lemma strip_to (s : string) :
  SQLite.strip_prefix " TO " (" TO " +:+ s) = Some s.
Proof. reflexivity. Qed.

Lemma sql_rename_column_parses (t old_name new_name : string) :
  quote_free t = true -> quote_free old_name = true ->
  quote_free new_name = true ->
  SQLite.parse (sql_rename_column t old_name new_name)
  = Some (SQLite.RenameColumn t old_name new_name).
Proof.
  intros Ht Hold Hnew. rewrite parse_sql_rename_column.
  unfold SQLite.parse_alter. rewrite quoted_identifier_plain by done.
  rewrite strip_rename_to_column, strip_rename_column.
  unfold SQLite.parse_rename_column.
  rewrite quoted_identifier_plain by done. rewrite strip_to.
  by rewrite quoted_identifier_plain.
Qed.

(** X11: For names without a double quote the statements the program builds
    determine the names they were built from: two different renames
    never give the same statement text. *)
Theorem rename_statements_unambiguous (t t' old_name old_name' new_name
    new_name' : string) :
  quote_free t = true -> quote_free t' = true ->
  quote_free old_name = true -> quote_free old_name' = true ->
  quote_free new_name = true -> quote_free new_name' = true ->
  (sql_table_info t = sql_table_info t' -> t = t') /\
  (sql_rename_table old_name new_name = sql_rename_table old_name' new_name' ->
   old_name = old_name' /\ new_name = new_name') /\
  (sql_rename_column t old_name new_name
   = sql_rename_column t' old_name' new_name' ->
   t = t' /\ old_name = old_name' /\ new_name = new_name').
Proof.
  intros Ht Ht' Ho Ho' Hn Hn'. split_and!.
  - intros Heq. apply (f_equal SQLite.parse) in Heq.
    rewrite !sql_table_info_parses in Heq by done. by injection Heq.
  - intros Heq. apply (f_equal SQLite.parse) in Heq.
    rewrite !sql_rename_table_parses in Heq by done. by injection Heq.
  - intros Heq. apply (f_equal SQLite.parse) in Heq.
    rewrite !sql_rename_column_parses in Heq by done. by injection Heq.
Qed.

(** With a double quote in a name the text no longer tells the renames
    apart. *)
Example rename_statements_ambiguous :
  sql_rename_table ("a" +:+ DQ +:+ " RENAME TO " +:+ DQ +:+ "b") "c"
  = sql_rename_table "a" ("b" +:+ DQ +:+ " RENAME TO " +:+ DQ +:+ "c").
Proof. reflexivity. Qed.

(** ** The small SQLite has well-shaped answers *)




(** ** Concrete instances of the general results *)

Lemma main_rejects_bad_path_witness :
  main (fun _ => false) always apply_args (start scenario_db)
  = (Ok tt,
     mkWorld scenario_db [] false []
       [(ERROR, "File error: Database file not found: app.db")]).
Proof.
  exact (main_rejects_bad_path (fun _ => false) always apply_args
           (start scenario_db) eq_refl eq_refl).
Defined.



Lemma main_after_failed_enumeration_witness :
  main always always apply_args (start SQLite.NotADatabase)
  = (Ok tt,
     mkWorld SQLite.NotADatabase [] true
       [Execute sql_select_tables; Commit; Close]
       [(ERROR, "Error during table renaming: file is not a database");
        (WARNING, msg_fk_warning);
        (INFO, msg_fk_apply);
        (INFO, "Database renaming completed successfully.");
        (INFO, "Database connection closed.")]).
Proof.
  exact (main_after_failed_enumeration always always apply_args
           (start SQLite.NotADatabase) "file is not a database"
           eq_refl eq_refl eq_refl).
Defined.

Lemma main_on_empty_database_witness :
  main always always dry_args (start (SQLite.Catalog []))
  = (Ok tt,
     mkWorld (SQLite.Catalog []) [] true
       [Execute sql_select_tables; Close]
       [(WARNING, msg_fk_warning);
        (INFO, msg_fk_dry);
        (INFO, "Dry run completed. No changes were applied to the database.");
        (INFO, "Database connection closed.")]).
Proof.
  exact (main_on_empty_database always always dry_args
           (start (SQLite.Catalog [])) (SQLite.Catalog [])
           eq_refl eq_refl eq_refl).
Defined.

Lemma rename_tables_dry_run_effects_witness :
  (rename_tables "table_" true (start scenario_db)).2
  = mkWorld scenario_db [] false [Execute sql_select_tables]
      [(INFO, msg_table_dry "users" "table_1");
       (INFO, msg_table_dry "orders" "table_2")].
Proof.
  exact (rename_tables_dry_run_effects "table_" (start scenario_db)
           scenario_db [["users"]; ["orders"]] ["users"; "orders"]
           eq_refl eq_refl).
Defined.

Lemma rename_columns_tables_not_found_witness :
  (forall t, t ∈ ["table_1"; "table_2"] ->
             db_execute scenario_db (sql_table_info t) = inr (scenario_db, [])) /\
  trace (rename_columns "column_"
           [("users", "table_1"); ("orders", "table_2")] true
           (start scenario_db)).2
  = [Execute (sql_table_info "table_1"); Execute (sql_table_info "table_2")] /\
  log (rename_columns "column_"
         [("users", "table_1"); ("orders", "table_2")] true
         (start scenario_db)).2
  = [].
Proof.
  assert (Hnone : forall t, t ∈ ["table_1"; "table_2"] ->
            db_execute scenario_db (sql_table_info t) = inr (scenario_db, [])).
  { intros t Ht. apply elem_of_cons in Ht as [->|Ht]; [reflexivity|].
    apply list_elem_of_singleton in Ht as ->. reflexivity. }
  split; [exact Hnone|].
  destruct (rename_columns_tables_not_found "column_"
              [("users", "table_1"); ("orders", "table_2")] true
              (start scenario_db) Hnone) as (_ & _ & Htr & Hlog).
  split; [exact Htr|exact Hlog].
Defined.

Lemma rename_statements_unambiguous_witness :
  quote_free "my table" = true /\
  ("my table" = "my table" /\ "x y" = "x y" /\ "column_1" = "column_1").
Proof.
  split; [reflexivity|].
  destruct (rename_statements_unambiguous "my table" "my table" "x y" "x y"
              "column_1" "column_1" eq_refl eq_refl eq_refl eq_refl eq_refl
              eq_refl) as (_ & _ & Hcol).
  exact (Hcol eq_refl).
Defined.

(** ** Complete runs on the small SQLite *)




































(** ** Repeating a run after a dry run *)

(** X13: A dry run does not disturb what comes after it: with an engine whose
    queries are pure, the renamers run on the state a dry run of [main]
    leaves behind return the same values, send the same statements and
    log the same records as they would have without it. *)
Theorem dry_run_is_repeatable {DB : Type} `{!Database DB}
    (os_path_exists os_path_isfile : string -> bool) (args : Args)
    (prefix : string) (table_mapping : dict) (dry_run : bool) (w : World DB) :
  queries_pure DB ->
  arg_dry_run args = true ->
  same_run w (main os_path_exists os_path_isfile args w).2
    (rename_tables prefix dry_run w)
    (rename_tables prefix dry_run (main os_path_exists os_path_isfile args w).2)
  /\
  same_run w (main os_path_exists os_path_isfile args w).2
    (rename_columns prefix table_mapping dry_run w)
    (rename_columns prefix table_mapping dry_run
       (main os_path_exists os_path_isfile args w).2).
Proof.
  intros Hpure Hdry.
  destruct (dry_ok_main os_path_exists os_path_isfile args Hdry w)
    as [_ Hdb].
  assert (Hw : alike false w (main os_path_exists os_path_isfile args w).2).
  { split; [by rewrite Hdb|done]. }
  split.
  - apply (det_rename_tables prefix dry_run _ _ Hw).
  - apply (det_rename_columns prefix table_mapping dry_run _ _ Hw).
Qed.

Lemma dry_run_is_repeatable_witness :
  (rename_tables "table_" false (start scenario_db)).1
  = (rename_tables "table_" false
       (main always always dry_args (start scenario_db)).2).1.
Proof.
  destruct (dry_run_is_repeatable always always dry_args "table_" [] false
              (start scenario_db) sqlite_queries_pure eq_refl)
    as [[Hres _] _].
  exact Hres.
Defined.
